(** * Ticket issuance by webhook (app.py): model and properties

    The development embeds the part of [app.py] that issues tickets: the
    [ingressos] table, [next_seq], [format_code] and the [/webhook] route.

    Conventions of the model.
    - Python values that come from JSON (the request body, the answer of
      the payment SDK) are values of [json].  JSON numbers with a fraction or
      an exponent (Python floats) are outside the model.
    - A [string] is a text given by its bytes (UTF-8).
    - A Python exception is a value of [exn]; code that may raise returns a
      [result].
    - The route is a program of SQL statements ([handler]); [run] executes
      it on a table state, [race] interleaves two of them statement by
      statement.
    - The file system, the image library, the mail transport, the clock and
      the payment SDK are read from a [world] record.  Opening the database
      and [os.path.exists] are taken not to raise. *)

From Stdlib Require Import ZArith List String Ascii Bool Lia.
From Stdlib Require Import Decimal DecimalString DecimalPos DecimalN DecimalZ.
Import ListNotations.

Local Open Scope string_scope.
Local Open Scope Z_scope.

(** ** Python values and exceptions *)

Local Unset Elimination Schemes.

Inductive json : Type :=
| JNull
| JBool (b : bool)
| JInt (n : Z)
| JStr (s : string)
| JList (l : list json)
| JDict (kv : list (string * json)).

Local Set Elimination Schemes.

Inductive exn : Type :=
| TypeError
| KeyError
| AttributeError
| IntegrityError
| OverflowError
| BindingError
| OSError (msg : string)
| External (msg : string).

Definition result (A : Type) : Type := (exn + A)%type.

Abbreviation ret a := (inr a) (only parsing).
Abbreviation raise e := (inl e) (only parsing).

Definition rbind {A B} (r : result A) (k : A -> result B) : result B :=
  match r with
  | inl e => inl e
  | inr a => k a
  end.

Declare Scope result_scope.
Delimit Scope result_scope with result.
Notation "x <- r ;; k" := (rbind r (fun x => k))
  (at level 61, r at next level, right associativity) : result_scope.

(** [bool(v)]: the truth value Python gives a JSON value. *)
Definition truthy (v : json) : bool :=
  match v with
  | JNull => false
  | JBool b => b
  | JInt n => negb (n =? 0)
  | JStr s => negb (s =? EmptyString)%string
  | JList l => match l with [] => false | _ :: _ => true end
  | JDict kv => match kv with [] => false | _ :: _ => true end
  end.

(** [v == s] for a [str] literal [s]. *)
Definition py_eq_str (v : json) (s : string) : bool :=
  match v with
  | JStr t => (t =? s)%string
  | _ => false
  end.

(** The items of a dict are kept in insertion order, keys pairwise
    distinct; a lookup takes the first item with the key. *)
Fixpoint lookup {V} (k : string) (kv : list (string * V)) : option V :=
  match kv with
  | [] => None
  | (k', v) :: rest => if (k' =? k)%string then Some v else lookup k rest
  end.

Definition has_key {V} (k : string) (kv : list (string * V)) : bool :=
  match lookup k kv with Some _ => true | None => false end.

(** [sub in s] on two texts. *)
Fixpoint is_substring (sub s : string) : bool :=
  prefix sub s ||
  match s with
  | EmptyString => false
  | String _ s' => is_substring sub s'
  end.

(** [k in v] for a [str] literal [k]. *)
Definition py_contains (k : string) (v : json) : result bool :=
  match v with
  | JDict kv => ret (has_key k kv)
  | JList l => ret (existsb (fun x => py_eq_str x k) l)
  | JStr s => ret (is_substring k s)
  | JNull | JBool _ | JInt _ => raise TypeError
  end.

(** [v[k]] for a [str] literal [k]. *)
Definition py_getitem (v : json) (k : string) : result json :=
  match v with
  | JDict kv =>
      match lookup k kv with
      | Some x => ret x
      | None => raise KeyError
      end
  | _ => raise TypeError
  end.

(** [v.get(k, default)]. *)
Definition py_get (v : json) (k : string) (default : json) : result json :=
  match v with
  | JDict kv =>
      match lookup k kv with
      | Some x => ret x
      | None => ret default
      end
  | _ => raise AttributeError
  end.

(** [a and b] on conditions that may raise: [b] is evaluated only when [a]
    is true. *)
Definition and_then (a b : result bool) : result bool :=
  match a with
  | inr true => b
  | _ => a
  end.

Infix "&&&" := and_then (at level 40, left associativity).

(** [str.lower()].  Only ASCII letters are mapped: the handler compares the
    result with an ASCII word, and no character outside ASCII lowers to one
    of its letters. *)
Definition lower_ascii (c : ascii) : ascii :=
  let n := N_of_ascii c in
  if ((65 <=? n) && (n <=? 90))%N then ascii_of_N (n + 32) else c.

Fixpoint lower (s : string) : string :=
  match s with
  | EmptyString => EmptyString
  | String c s' => String (lower_ascii c) (lower s')
  end.

(** Decimal text of an integer, as [str(n)] and [format(n, "d")] print it. *)
Definition decimal (n : Z) : string := NilZero.string_of_int (Z.to_int n).

(** ** The ticket code *)

Fixpoint zeros (k : nat) : string :=
  match k with
  | O => EmptyString
  | S k' => String "0" (zeros k')
  end.

(** [format(n, "0<w>d")]: the sign first, then zeros up to width [w]. *)
Definition format_0d (w : nat) (n : Z) : string :=
  let digits := NilZero.string_of_uint (N.to_uint (Z.abs_N n)) in
  if n <? 0
  then String "-" (zeros (w - 1 - length digits)%nat ++ digits)
  else zeros (w - length digits)%nat ++ digits.

Record config := {
  INGRESSO_PREFIX : option string;   (* os.getenv("INGRESSO_PREFIX") *)
  MP_SDK_AVAILABLE : bool;
  PIL_AVAILABLE : bool;
  EMAIL_USER : string
}.

Definition PREFIX (cfg : config) : string :=
  match INGRESSO_PREFIX cfg with
  | Some p => p
  | None => "LUAL"
  end.

Definition format_code (cfg : config) (seq : Z) : string :=
  PREFIX cfg ++ format_0d 4 seq.

(** ** The table [ingressos] *)

(** One row.  The surrogate [id] is not a field: the rows of a table state
    are listed in increasing [id]. *)
Record ingresso := {
  evento : string;
  seq : Z;
  codigo : string;
  comprador_email : string;
  status : string;
  mp_payment_id : option string;
  created_at : string
}.

Definition db := list ingresso.

(** [SELECT MAX(seq) FROM ingressos]: [None] is SQL [NULL]. *)
Definition select_max_seq (st : db) : option Z :=
  match map seq st with
  | [] => None
  | x :: xs => Some (fold_left Z.max xs x)
  end.

(** [SELECT * FROM ingressos WHERE mp_payment_id = ?], first row. *)
Definition select_by_payment (st : db) (pid : string) : option ingresso :=
  find (fun r => match mp_payment_id r with
                 | Some p => (p =? pid)%string
                 | None => false
                 end) st.

Definition INT64_MAX : Z := 9223372036854775807.
Definition INT64_MIN : Z := -9223372036854775808.

Definition is_int64 (n : Z) : bool := (INT64_MIN <=? n) && (n <=? INT64_MAX).

(** A Python integer bound to a statement parameter. *)
Definition bind_int (n : Z) : result Z :=
  if is_int64 n then ret n else raise OverflowError.

(** A Python value bound to the parameter of a [TEXT NOT NULL] column: a
    number is stored as its text. *)
Definition bind_text (v : json) : result string :=
  match v with
  | JStr s => ret s
  | JInt n => if is_int64 n then ret (decimal n) else raise OverflowError
  | JBool b => ret (if b then "1" else "0")
  | JNull => raise IntegrityError
  | JList _ | JDict _ => raise BindingError
  end.

(** The [INSERT] of the handler followed by its [commit]: [codigo] is
    [UNIQUE]; no other column carries a uniqueness constraint. *)
Definition insert_ingresso (st : db) (r : ingresso) : result db :=
  if existsb (fun r' => (codigo r' =? codigo r)%string) st
  then raise IntegrityError
  else ret (st ++ [r])%list.

(** ** Files, mail and the outside world *)

(** [os.path.join a b]. *)
Definition path_join (a b : string) : string :=
  if prefix "/" b then b
  else if (a =? EmptyString)%string || (substring (length a - 1) 1 a =? "/")%string
  then a ++ b
  else a ++ "/" ++ b.

Definition nl : string := String (ascii_of_nat 10) EmptyString.

Record message := {
  subject : string;
  sender : string;
  recipients : list json;
  msg_body : string;
  attachments : list (string * string * string)  (* filename, type, data *)
}.

Record world := {
  (* sdk.payment().get(payment_id) *)
  gateway : json -> result json;
  (* datetime.utcnow().isoformat() *)
  utcnow : string;
  (* os.path.exists *)
  path_exists : string -> bool;
  (* os.makedirs(path, exist_ok=True): the message of the OSError, if any *)
  makedirs : string -> option string;
  (* lines 249-267: open the base image, draw the text, save to the path *)
  stamp : string -> string -> string -> option exn;
  (* open(path, "rb").read() *)
  read_file : string -> result string;
  (* mail.send *)
  mail_send : message -> option exn
}.

Inductive event : Type :=
| Printed (msg : string) (e : option exn)
| MakeDirs (path : string)
| SavedImage (path text : string)
| Committed (r : ingresso)
| SentMail (m : message).

Record request := {
  (* request.get_json(force=True, silent=True) *)
  body : option json;
  (* request.args, first value of each key *)
  args : list (string * string)
}.

(** ** Handlers: programs of SQL statements *)

Inductive handler (A : Type) : Type :=
| Return (a : A)
| Raise (e : exn)
| Emit (ev : event) (k : handler A)
| SelectByPayment (pid : string) (k : option ingresso -> handler A)
| SelectMaxSeq (k : option Z -> handler A)
| Insert (r : ingresso) (k : handler A).

Arguments Return {A} a.
Arguments Raise {A} e.
Arguments Emit {A} ev k.
Arguments SelectByPayment {A} pid k.
Arguments SelectMaxSeq {A} k.
Arguments Insert {A} r k.

Fixpoint hbind {A B} (p : handler A) (f : A -> handler B) : handler B :=
  match p with
  | Return a => f a
  | Raise e => Raise e
  | Emit ev k => Emit ev (hbind k f)
  | SelectByPayment pid k => SelectByPayment pid (fun row => hbind (k row) f)
  | SelectMaxSeq k => SelectMaxSeq (fun row => hbind (k row) f)
  | Insert r k => Insert r (hbind k f)
  end.

Fixpoint emit_all {A} (evs : list event) (k : handler A) : handler A :=
  match evs with
  | [] => k
  | ev :: rest => Emit ev (emit_all rest k)
  end.

Declare Scope handler_scope.
Delimit Scope handler_scope with handler.
Notation "x <- p ;; k" := (hbind p (fun x => k))
  (at level 61, p at next level, right associativity) : handler_scope.

Record outcome (A : Type) := {
  final_db : db;
  trace : list event;
  returned : result A
}.

Arguments final_db {A} o.
Arguments trace {A} o.
Arguments returned {A} o.

Definition logged {A} (ev : event) (o : outcome A) : outcome A :=
  {| final_db := final_db o; trace := ev :: trace o; returned := returned o |}.

(** A request served alone: every statement sees the table as the previous
    one left it. *)
Fixpoint run {A} (p : handler A) (st : db) : outcome A :=
  match p with
  | Return a => {| final_db := st; trace := []; returned := ret a |}
  | Raise e => {| final_db := st; trace := []; returned := raise e |}
  | Emit ev k => logged ev (run k st)
  | SelectByPayment pid k => run (k (select_by_payment st pid)) st
  | SelectMaxSeq k => run (k (select_max_seq st)) st
  | Insert r k =>
      match insert_ingresso st r with
      | inl e => {| final_db := st; trace := []; returned := raise e |}
      | inr st' => logged (Committed r) (run k st')
      end
  end.

(** One statement (or one effect) of a handler. *)
Definition step {A} (p : handler A) (st : db) : handler A * db :=
  match p with
  | Return _ | Raise _ => (p, st)
  | Emit _ k => (k, st)
  | SelectByPayment pid k => (k (select_by_payment st pid), st)
  | SelectMaxSeq k => (k (select_max_seq st), st)
  | Insert r k =>
      match insert_ingresso st r with
      | inl e => (Raise e, st)
      | inr st' => (k, st')
      end
  end.

(** Two requests served at the same time.  The schedule names the request
    that moves next ([true]: the first); when it is used up the first
    request finishes, then the second. *)
Fixpoint race {A B} (schedule : list bool) (p : handler A) (q : handler B)
    (st : db) : result A * result B * db :=
  match schedule with
  | [] =>
      let o1 := run p st in
      let o2 := run q (final_db o1) in
      (returned o1, returned o2, final_db o2)
  | true :: rest => let '(p', st') := step p st in race rest p' q st'
  | false :: rest => let '(q', st') := step q st in race rest p q' st'
  end.

(** What Flask answers: the pair the view returned, or 500 when the view
    raised. *)
Definition status_code (r : result (string * Z)) : Z :=
  match r with
  | inr (_, code) => code
  | inl _ => 500
  end.

(** ** The sequencer *)

(** Line 84: the maximum read from the row, [0] when it is [NULL]. *)
Definition maxseq_of (row : option Z) : Z :=
  match row with
  | Some m => m
  | None => 0
  end.

Definition next_seq : handler Z :=
  SelectMaxSeq (fun row => Return (maxseq_of row + 1)).

(** ** The route [/webhook] *)

Section Webhook.

(** [repr] of a list or of a dict, the text [str] gives such a value. *)
Variable py_repr : json -> string.

Definition py_str (v : json) : string :=
  match v with
  | JNull => "None"
  | JBool b => if b then "True" else "False"
  | JInt n => decimal n
  | JStr s => s
  | JList _ | JDict _ => py_repr v
  end.

(** [request.get_json(force=True, silent=True) or {}]. *)
Definition get_payload (req : request) : json :=
  match body req with
  | Some v => if truthy v then v else JDict []
  | None => JDict []
  end.

Definition is_dict (v : json) : bool :=
  match v with
  | JDict _ => true
  | _ => false
  end.

(** Line 194. *)
Definition cond_type (payload : json) : result bool :=
  (py_contains "type" payload
   &&& (t <- py_getitem payload "type";; ret (py_eq_str t "payment"))
   &&& py_contains "data" payload
   &&& (d <- py_getitem payload "data";; py_contains "id" d))%result.

(** Line 196. *)
Definition cond_topic (payload : json) : result bool :=
  (py_contains "topic" payload
   &&& (t <- py_getitem payload "topic";; ret (py_eq_str t "payment"))
   &&& py_contains "id" payload)%result.

(** Line 198. *)
Definition cond_data (payload : json) : result bool :=
  (py_contains "data" payload
   &&& (d <- py_getitem payload "data";; ret (is_dict d))
   &&& (d <- py_getitem payload "data";; py_contains "id" d))%result.

(** Line 201: [request.args.get("topic") == "payment" and
    request.args.get("id")], with the id it selects. *)
Definition args_payment_id (a : list (string * string)) : option string :=
  match lookup "topic" a with
  | Some t =>
      if (t =? "payment")%string then
        match lookup "id" a with
        | Some i => if (i =? EmptyString)%string then None else Some i
        | None => None
        end
      else None
  | None => None
  end.

(** The body of the [try] of lines 193-202; [JNull] is [None]. *)
Definition extract_payment_id (payload : json) (a : list (string * string))
  : result json :=
  (c1 <- cond_type payload;;
   if c1 then d <- py_getitem payload "data";; py_getitem d "id"
   else
     c2 <- cond_topic payload;;
     if c2 then py_getitem payload "id"
     else
       c3 <- cond_data payload;;
       if c3 then d <- py_getitem payload "data";; py_getitem d "id"
       else
         match args_payment_id a with
         | Some i => ret (JStr i)
         | None => ret JNull
         end)%result.

(** Lines 192-204: an exception in the extraction leaves no payment id. *)
Definition payment_id_of (req : request) : json :=
  match extract_payment_id (get_payload req) (args req) with
  | inr v => v
  | inl _ => JNull
  end.

(** The body of the [try] of lines 216-218. *)
Definition fetch_payment (w : world) (payment_id : json) : result json :=
  (payment <- gateway w payment_id;;
   py_get payment "response" (JDict []))%result.

(** Lines 223-225: the status and the buyer's address. *)
Definition read_payment (payment_info : json) : result (json * json) :=
  (st <- py_get payment_info "status" JNull;;
   payer <- py_get payment_info "payer" (JDict []);;
   email <- py_get payer "email" JNull;;
   if truthy email then ret (st, email)
   else
     flat <- py_get payment_info "payer_email" JNull;;
     if truthy flat then ret (st, flat)
     else ret (st, JStr "sem-email@local"))%result.

(** Line 227: [status and status.lower() == "approved"]. *)
Definition is_approved (st : json) : result bool :=
  if truthy st then
    match st with
    | JStr s => ret (lower s =? "approved")%string
    | _ => raise AttributeError
    end
  else ret false.

Definition ingresso_dir : string := path_join "static" "ingressos".
Definition base_path : string := path_join "static" "ingresso_base.png".

(** Lines 244-273: the stamped image, when the library and the base image
    are there; a failure is printed and leaves no image. *)
Definition generate_image (cfg : config) (w : world) (code : string)
  : option string * list event :=
  if PIL_AVAILABLE cfg && path_exists w base_path then
    let text := "#" ++ code in
    let generated_path := path_join ingresso_dir (code ++ ".png") in
    match stamp w base_path text generated_path with
    | None => (Some generated_path, [SavedImage generated_path text])
    | Some e => (None, [Printed "Erro ao gerar imagem carimbada:" (Some e)])
    end
  else (None, []).

(** Lines 285-293: the message and its attachment. *)
Definition build_message (cfg : config) (w : world) (code : string)
    (payer_email : json) (generated_path : option string) : result message :=
  let attach (name path : string) : result (list (string * string * string)) :=
    (data <- read_file w path;; ret [(name, "image/png", data)])%result in
  (att <- (match generated_path with
           | Some p =>
               if path_exists w p then attach (code ++ ".png") p
               else if path_exists w base_path
                    then attach "ingresso.png" base_path
                    else ret []
           | None =>
               if path_exists w base_path
               then attach "ingresso.png" base_path
               else ret []
           end);;
   ret {| subject := "Seu ingresso — " ++ code;
          sender := EMAIL_USER cfg;
          recipients := [payer_email];
          msg_body := "Obrigado pela compra!" ++ nl ++ nl ++
                      "Seu ingresso: #" ++ code ++ nl ++ nl ++
                      "Apresente este ingresso no evento.";
          attachments := att |})%result.

(** Lines 284-299: the mail is sent; a failure is printed. *)
Definition send_ticket_mail (cfg : config) (w : world) (code : string)
    (payer_email : json) (generated_path : option string) : list event :=
  match (m <- build_message cfg w code payer_email generated_path;;
         match mail_send w m with
         | Some e => raise e
         | None => ret m
         end)%result with
  | inl e => [Printed "Erro ao enviar e-mail:" (Some e)]
  | inr m => [SentMail m]
  end.

Definition OK : string * Z := ("OK", 200).

(** The route answered [OK] and left the table as it was. *)
Definition acknowledged (st : db) (printed : list event)
  : outcome (string * Z) :=
  {| final_db := st; trace := printed; returned := ret OK |}.

(** Lines 237-300: a ticket is issued for an approved payment that has no
    row yet.  [os.makedirs] (line 243) is outside every [try]: when it
    raises, the request ends there. *)
Definition issue (cfg : config) (w : world) (payment_id payer_email : json)
  : handler (string * Z) :=
  (n <- next_seq;;
   let code := format_code cfg n in
   let now := utcnow w in
   let '(generated_path, printed) := generate_image cfg w code in
   match makedirs w ingresso_dir with
   | Some msg => Raise (OSError msg)
   | None =>
   Emit (MakeDirs ingresso_dir)
     (emit_all printed
        match (s <- bind_int n;;
               e <- bind_text payer_email;;
               ret {| evento := "Lual na Praia";
                      seq := s;
                      codigo := code;
                      comprador_email := e;
                      status := "pago";
                      mp_payment_id := Some (py_str payment_id);
                      created_at := now |})%result with
        | inl e => Raise e
        | inr r =>
            Insert r
              (emit_all
                 (send_ticket_mail cfg w code payer_email generated_path)
                 (Return OK))
        end)
   end)%handler.

Definition webhook (cfg : config) (w : world) (req : request)
  : handler (string * Z) :=
  let payment_id := payment_id_of req in
  if negb (truthy payment_id) then Return OK
  else if negb (MP_SDK_AVAILABLE cfg) then
    Emit (Printed
            "Webhook recebido, mas SDK Mercado Pago não está disponível." None)
         (Return OK)
  else
    match fetch_payment w payment_id with
    | inl e => Emit (Printed "Erro ao consultar pagamento:" (Some e)) (Return OK)
    | inr payment_info =>
        match (x <- read_payment payment_info;;
               a <- is_approved (fst x);;
               ret (snd x, a))%result with
        | inl e => Raise e
        | inr (_, false) => Return OK
        | inr (payer_email, true) =>
            SelectByPayment (py_str payment_id) (fun already =>
              match already with
              | Some _ => Return OK
              | None => issue cfg w payment_id payer_email
              end)
        end
    end.

(** The table states the route produces when requests are served one after
    the other, from the empty table [init_db] creates. *)
Inductive reachable (cfg : config) : db -> Prop :=
| reach_init : reachable cfg []
| reach_serve st w req :
    reachable cfg st ->
    reachable cfg (final_db (run (webhook cfg w req) st)).

End Webhook.

(** ** The extraction policy in the words of the specification *)

(** [v.k] is present when [v] is an object with a member [k]. *)
Definition member (v : json) (k : string) : option json :=
  match v with
  | JDict kv => lookup k kv
  | _ => None
  end.

Definition data_id (payload : json) : option json :=
  match member payload "data" with
  | Some d => member d "id"
  | None => None
  end.

(** Rule 1: [payload.type == "payment"] and [payload.data.id] present. *)
Definition rule_type (payload : json) : option json :=
  match member payload "type", data_id payload with
  | Some t, Some i => if py_eq_str t "payment" then Some i else None
  | _, _ => None
  end.

(** Rule 2: [payload.topic == "payment"] and [payload.id] present. *)
Definition rule_topic (payload : json) : option json :=
  match member payload "topic", member payload "id" with
  | Some t, Some i => if py_eq_str t "payment" then Some i else None
  | _, _ => None
  end.

(** Rule 4: query parameters [topic=payment&id=<id>], the id not empty. *)
Definition rule_query (a : list (string * string)) : option json :=
  match lookup "topic" a, lookup "id" a with
  | Some t, Some i =>
      if (t =? "payment")%string && negb (i =? EmptyString)%string
      then Some (JStr i) else None
  | _, _ => None
  end.

Definition or_else {A} (a b : option A) : option A :=
  match a with
  | Some _ => a
  | None => b
  end.

(** The first rule that matches gives the id; rule 3 is [data_id]. *)
Definition spec_payment_id (payload : json) (a : list (string * string))
  : option json :=
  or_else (rule_type payload)
    (or_else (rule_topic payload)
       (or_else (data_id payload) (rule_query a))).

(** The route follows the policy on a request. *)
Definition follows_policy (req : request) : Prop :=
  payment_id_of req =
  match spec_payment_id (get_payload req) (args req) with
  | Some i => i
  | None => JNull
  end.

(** A JSON object whose [data] member, when there is one, is an object. *)
Definition plain_payload (payload : json) : bool :=
  match payload with
  | JDict kv =>
      match lookup "data" kv with
      | Some (JDict _) | None => true
      | Some _ => false
      end
  | _ => false
  end.

(** The buyer's address in the words of the specification: the first
    candidate that is not empty, else the placeholder. *)
Fixpoint first_truthy (candidates : list json) (placeholder : json) : json :=
  match candidates with
  | [] => placeholder
  | c :: rest => if truthy c then c else first_truthy rest placeholder
  end.

Definition field (kv : list (string * json)) (k : string) : json :=
  match lookup k kv with
  | Some v => v
  | None => JNull
  end.

(** The number a text of digits denotes, leading zeros allowed. *)
Definition value (s : string) : option N :=
  option_map N.of_uint (NilEmpty.uint_of_string s).

(** The integer a decimal text denotes, with its sign. *)
Definition number_of_text (s : string) : option Z :=
  option_map Z.of_int (NilZero.int_of_string s).

(** ** Views of a table state *)

Definition payment_refs (st : db) : list string :=
  flat_map (fun r => match mp_payment_id r with
                     | Some p => [p]
                     | None => []
                     end) st.

Definition has_ref (pid : string) (r : ingresso) : bool :=
  match mp_payment_id r with
  | Some p => (p =? pid)%string
  | None => false
  end.

Definition tickets_of (st : db) (pid : string) : list ingresso :=
  filter (has_ref pid) st.

Definition code_taken (st : db) (c : string) : bool :=
  existsb (fun r => (codigo r =? c)%string) st.

(** The insert taken as the guard of both uniqueness rules: it fails
    whenever the new row repeats a code or a payment reference. *)
Definition insert_guards_uniqueness (st : db) (r : ingresso) : Prop :=
  (code_taken st (codigo r) = true \/
   exists p, mp_payment_id r = Some p /\ In p (payment_refs st)) ->
  insert_ingresso st r = raise IntegrityError.

(** Every code is the formatted sequence number of its row. *)
Definition well_numbered (cfg : config) (st : db) : Prop :=
  Forall (fun r => codigo r = format_code cfg (seq r)) st.

Definition is_printed (ev : event) : bool :=
  match ev with
  | Printed _ _ => true
  | _ => false
  end.

Definition is_mail (ev : event) : bool :=
  match ev with
  | SentMail _ => true
  | Printed msg _ => (msg =? "Erro ao enviar e-mail:")%string
  | _ => false
  end.

(** ** Sample configuration, worlds and requests *)

Definition default_config : config :=
  {| INGRESSO_PREFIX := None;
     MP_SDK_AVAILABLE := true;
     PIL_AVAILABLE := true;
     EMAIL_USER := EmptyString |}.

Definition sample_repr (v : json) : string := "[]".

Definition payment_answer (st email : string) : json :=
  JDict [("status", JInt 200);
         ("response", JDict [("status", JStr st);
                             ("payer", JDict [("email", JStr email)])])].

(** Payments answer with the given status; image and mail work. *)
Definition calm_world (st : string) : world :=
  {| gateway := fun _ => ret (payment_answer st "a@b.com");
     utcnow := "2025-09-20T12:00:00";
     path_exists := fun _ => true;
     makedirs := fun _ => None;
     stamp := fun _ _ _ => None;
     read_file := fun _ => ret "png";
     mail_send := fun _ => None |}.

(** Payments are approved; the image library and the mail server raise. *)
Definition rough_world : world :=
  {| gateway := fun _ => ret (payment_answer "approved" "a@b.com");
     utcnow := "2025-09-20T12:00:00";
     path_exists := fun _ => true;
     makedirs := fun _ => None;
     stamp := fun _ _ _ => Some (External "textsize");
     read_file := fun _ => ret "png";
     mail_send := fun _ => Some (External "smtp") |}.

(** The payment SDK raises. *)
Definition offline_world : world :=
  {| gateway := fun _ => raise (External "timeout");
     utcnow := "2025-09-20T12:00:00";
     path_exists := fun _ => true;
     makedirs := fun _ => None;
     stamp := fun _ _ _ => None;
     read_file := fun _ => ret "png";
     mail_send := fun _ => None |}.

Definition payment_request (i : json) : request :=
  {| body := Some (JDict [("type", JStr "payment"); ("data", JDict [("id", i)])]);
     args := [] |}.

Definition empty_request : request :=
  {| body := Some (JDict []); args := [] |}.

(** [{"type":"payment","data":null,"topic":"payment","id":"7"}] *)
Definition null_data_request : request :=
  {| body := Some (JDict [("type", JStr "payment"); ("data", JNull);
                          ("topic", JStr "payment"); ("id", JStr "7")]);
     args := [] |}.

Definition sample_row (n : Z) (pid : string) : ingresso :=
  {| evento := "Lual na Praia";
     seq := n;
     codigo := format_code default_config n;
     comprador_email := "a@b.com";
     status := "pago";
     mp_payment_id := Some pid;
     created_at := "2025-09-20T12:00:00" |}.

(** ** Deliveries in sequence *)

(** The provider reports the payment of the request approved, with an
    address that can be stored. *)
Definition approved_delivery (w : world) (req : request) : Prop :=
  truthy (payment_id_of req) = true /\
  exists info s email e,
    fetch_payment w (payment_id_of req) = ret info /\
    read_payment info = ret (s, email) /\
    is_approved s = ret true /\
    bind_text email = ret e.

Section Deliveries.

Variable py_repr : json -> string.

(** Requests served one after the other, each in its own world. *)
Fixpoint serve_all (cfg : config) (ds : list (world * request)) (st : db)
  : db :=
  match ds with
  | [] => st
  | (w, req) :: rest =>
      serve_all cfg rest (final_db (run (webhook py_repr cfg w req) st))
  end.

(** The key of a delivery: its payment id as text. *)
Definition delivery_key (d : world * request) : string :=
  py_str py_repr (payment_id_of (snd d)).

End Deliveries.

(** The numbers [1; 2; ...; n]. *)
Definition first_numbers (n : nat) : list Z :=
  map Z.of_nat (List.seq 1 n).

(** ** The admin area *)

Record admin_env := {
  env_ADMIN_USER : option string;   (* os.getenv("ADMIN_USER") *)
  env_ADMIN_PASS : option string    (* os.getenv("ADMIN_PASS") *)
}.

Definition ADMIN_USER (env : admin_env) : string :=
  match env_ADMIN_USER env with
  | Some u => u
  | None => "admin"
  end.

Definition ADMIN_PASS (env : admin_env) : string :=
  match env_ADMIN_PASS env with
  | Some p => p
  | None => "senha123"
  end.

(** The Flask session of one client, a dict. *)
Definition session := list (string * json).

(** [d[k] = v]: the value of an existing key is replaced in place. *)
Fixpoint dict_set {V} (k : string) (v : V) (d : list (string * V))
  : list (string * V) :=
  match d with
  | [] => [(k, v)]
  | (k', v') :: rest =>
      if (k' =? k)%string then (k, v) :: rest
      else (k', v') :: dict_set k v rest
  end.

(** [d.pop(k, None)], the value dropped. *)
Definition dict_pop {V} (k : string) (d : list (string * V))
  : list (string * V) :=
  filter (fun item => negb (fst item =? k)%string) d.

Inductive reply : Type :=
| RenderLogin                          (* the login form *)
| RenderPanel (rows : list ingresso)   (* the panel, rendered with the rows *)
| JsonRows (rows : list ingresso)      (* jsonify of the rows *)
| RedirectTo (url : string)
| Plain (text : string) (code : Z).

(** [SELECT * FROM ingressos ORDER BY id DESC]. *)
Definition select_all_desc (st : db) : list ingresso := List.rev st.

(** The decorator of lines 341-347. *)
Definition admin_required (view : reply) (s : session) : reply :=
  match lookup "admin_logged" s with
  | Some v => if truthy v then view else RedirectTo "/admin/login"
  | None => RedirectTo "/admin/login"
  end.

(** [form.get(k) == expected]. *)
Definition form_is (form : list (string * string)) (k expected : string)
  : bool :=
  match lookup k form with
  | Some v => (v =? expected)%string
  | None => false
  end.

(** Lines 349-358, for the method the view is called with. *)
Definition admin_login (env : admin_env) (method : string)
    (form : list (string * string)) (s : session) : reply * session :=
  if (method =? "GET")%string then (RenderLogin, s)
  else if form_is form "user" (ADMIN_USER env)
          && form_is form "pass" (ADMIN_PASS env)
  then (RedirectTo "/admin", dict_set "admin_logged" (JBool true) s)
  else (Plain "Credenciais inválidas" 401, s).

(** Lines 360-363. *)
Definition admin_logout (s : session) : reply * session :=
  (RedirectTo "/admin/login", dict_pop "admin_logged" s).

(** Lines 365-373. *)
Definition admin_panel (st : db) (s : session) : reply :=
  admin_required (RenderPanel (select_all_desc st)) s.

(** Lines 376-384. *)
Definition api_ingressos (st : db) (s : session) : reply :=
  admin_required (JsonRows (select_all_desc st)) s.

(** What one client does to its session, request after request. *)
Inductive admin_action : Type :=
| Login (method : string) (form : list (string * string))
| Logout.

Definition admin_step (env : admin_env) (s : session) (a : admin_action)
  : session :=
  match a with
  | Login method form => snd (admin_login env method form s)
  | Logout => snd (admin_logout s)
  end.

Definition admin_steps (env : admin_env) (acts : list admin_action)
    (s : session) : session :=
  fold_left (admin_step env) acts s.

(** A login that is not a [GET] and carries both configured values. *)
Definition good_login (env : admin_env) (a : admin_action) : bool :=
  match a with
  | Login method form =>
      negb (method =? "GET")%string
      && form_is form "user" (ADMIN_USER env)
      && form_is form "pass" (ADMIN_PASS env)
  | Logout => false
  end.

Definition is_logout (a : admin_action) : bool :=
  match a with
  | Logout => true
  | Login _ _ => false
  end.

(** The session lets the admin views through. *)
Definition logged_in (s : session) : bool :=
  match lookup "admin_logged" s with
  | Some v => truthy v
  | None => false
  end.

Definition default_admin : admin_env :=
  {| env_ADMIN_USER := None; env_ADMIN_PASS := None |}.

Definition admin_form (user pass : string) : list (string * string) :=
  [("user", user); ("pass", pass)].

Definition no_sdk_config : config :=
  {| INGRESSO_PREFIX := None;
     MP_SDK_AVAILABLE := false;
     PIL_AVAILABLE := true;
     EMAIL_USER := EmptyString |}.

(** The provider answers with an approved payment whose payer is null. *)
Definition null_payer_world : world :=
  {| gateway := fun _ =>
       ret (JDict [("response",
                    JDict [("status", JStr "approved"); ("payer", JNull)])]);
     utcnow := "2025-09-20T12:00:00";
     path_exists := fun _ => true;
     makedirs := fun _ => None;
     stamp := fun _ _ _ => None;
     read_file := fun _ => ret "png";
     mail_send := fun _ => None |}.

Definition two_deliveries : list (world * request) :=
  [(calm_world "approved", payment_request (JStr "1"));
   (calm_world "approved", payment_request (JStr "2"))].

(** A number as body, the id in the query string. *)
Definition number_body_request : request :=
  {| body := Some (JInt 5); args := [("topic", "payment"); ("id", "7")] |}.

(** Payments are approved; the directory of the images cannot be made. *)
Definition readonly_world : world :=
  {| gateway := fun _ => ret (payment_answer "approved" "a@b.com");
     utcnow := "2025-09-20T12:00:00";
     path_exists := fun _ => true;
     makedirs := fun _ => Some "Read-only file system";
     stamp := fun _ _ _ => None;
     read_file := fun _ => ret "png";
     mail_send := fun _ => None |}.

(** The provider does not know the payment: its answer carries the
    number 404 as status. *)
Definition not_found_world : world :=
  {| gateway := fun _ =>
       ret (JDict [("status", JInt 404);
                   ("response",
                    JDict [("message", JStr "Payment not found");
                           ("error", JStr "not_found");
                           ("status", JInt 404)])]);
     utcnow := "2025-09-20T12:00:00";
     path_exists := fun _ => true;
     makedirs := fun _ => None;
     stamp := fun _ _ _ => None;
     read_file := fun _ => ret "png";
     mail_send := fun _ => None |}.

(** The payment is pending and the answer has [null] for its payer. *)
Definition pending_null_payer_world : world :=
  {| gateway := fun _ =>
       ret (JDict [("status", JInt 200);
                   ("response",
                    JDict [("status", JStr "pending"); ("payer", JNull)])]);
     utcnow := "2025-09-20T12:00:00";
     path_exists := fun _ => true;
     makedirs := fun _ => None;
     stamp := fun _ _ _ => None;
     read_file := fun _ => ret "png";
     mail_send := fun _ => None |}.

(** A table edited by hand: its one row holds the code of number 2. *)
Definition edited_table : db :=
  [{| evento := "Lual na Praia";
      seq := 1;
      codigo := "LUAL0002";
      comprador_email := "x@y.com";
      status := "pago";
      mp_payment_id := None;
      created_at := "2025-09-19T08:00:00" |}].

(** * Properties *)

(** ** Texts and decimal numbers *)

Lemma append_inv_head (p a b : string) : p ++ a = p ++ b -> a = b.
Proof.
  induction p as [|c p IH]; simpl; intros H.
  - exact H.
  - injection H as H. auto.
Qed.

Lemma length_zeros (k : nat) : length (zeros k) = k.
Proof. induction k; simpl; congruence. Qed.

Lemma length_append (a b : string) : length (a ++ b) = (length a + length b)%nat.
Proof. induction a; simpl; congruence. Qed.

(** The digits [N.to_uint] gives are never the empty number. *)
Lemma to_uint_nonnil (m : N) : N.to_uint m <> Nil.
Proof.
  destruct m as [|p]; simpl.
  - discriminate.
  - intros H. pose proof (DecimalPos.Unsigned.to_uint_nonnil p). contradiction.
Qed.

Lemma digits_nilempty (m : N) :
  NilZero.string_of_uint (N.to_uint m) = NilEmpty.string_of_uint (N.to_uint m).
Proof.
  pose proof (to_uint_nonnil m) as H.
  destruct (N.to_uint m); simpl; congruence.
Qed.

Lemma value_zeros (k : nat) (s : string) : value (zeros k ++ s) = value s.
Proof.
  unfold value. induction k as [|k IH]; simpl.
  - reflexivity.
  - destruct (NilEmpty.uint_of_string (zeros k ++ s)) as [d|] eqn:E;
      destruct (NilEmpty.uint_of_string s) as [d'|] eqn:E'; simpl in *;
      try discriminate; auto.
Qed.

Lemma value_digits (m : N) :
  value (NilZero.string_of_uint (N.to_uint m)) = Some m.
Proof.
  rewrite digits_nilempty. unfold value.
  rewrite NilEmpty.usu. simpl. f_equal. apply DecimalN.Unsigned.of_to.
Qed.

Lemma value_minus (s : string) : value (String "-" s) = None.
Proof.
  unfold value. simpl.
  destruct (NilEmpty.uint_of_string s); reflexivity.
Qed.

Lemma format_0d_nonneg (w : nat) (n : Z) :
  0 <= n -> value (format_0d w n) = Some (Z.abs_N n).
Proof.
  intros H. unfold format_0d.
  destruct (Z.ltb_spec n 0) as [?|_]; [lia|].
  rewrite value_zeros. apply value_digits.
Qed.

Lemma format_0d_neg (w : nat) (n : Z) :
  n < 0 -> exists s, format_0d w n = String "-" s /\ value s = Some (Z.abs_N n).
Proof.
  intros H. unfold format_0d.
  destruct (Z.ltb_spec n 0) as [_|?]; [|lia].
  eexists. split; [reflexivity|].
  rewrite value_zeros. apply value_digits.
Qed.

(** Two sequence numbers never print as the same text. *)
Lemma format_0d_inj (w : nat) (a b : Z) :
  format_0d w a = format_0d w b -> a = b.
Proof.
  intros H.
  destruct (Z.lt_ge_cases a 0) as [Ha|Ha]; destruct (Z.lt_ge_cases b 0) as [Hb|Hb].
  - destruct (format_0d_neg w a Ha) as (sa & Ea & Va).
    destruct (format_0d_neg w b Hb) as (sb & Eb & Vb).
    rewrite Ea, Eb in H. injection H as H. subst sb.
    rewrite Va in Vb. injection Vb as Vb. lia.
  - destruct (format_0d_neg w a Ha) as (sa & Ea & _).
    pose proof (format_0d_nonneg w b Hb) as Vb.
    rewrite <- H, Ea, value_minus in Vb. discriminate.
  - destruct (format_0d_neg w b Hb) as (sb & Eb & _).
    pose proof (format_0d_nonneg w a Ha) as Va.
    rewrite H, Eb, value_minus in Va. discriminate.
  - pose proof (format_0d_nonneg w a Ha) as Va.
    pose proof (format_0d_nonneg w b Hb) as Vb.
    rewrite H, Vb in Va. injection Va as Va. lia.
Qed.

Lemma format_code_inj (cfg : config) (a b : Z) :
  format_code cfg a = format_code cfg b -> a = b.
Proof.
  unfold format_code. intros H.
  apply append_inv_head in H. eapply format_0d_inj; eauto.
Qed.

Lemma decimal_nonneg (n : Z) :
  0 <= n -> decimal n = NilZero.string_of_uint (N.to_uint (Z.abs_N n)).
Proof.
  intros H. destruct n as [|p|p]; try reflexivity. lia.
Qed.

(** C8. [format_code] gives the configured prefix (["LUAL"] when
    [INGRESSO_PREFIX] is not set) followed by the decimal text of the
    sequence number, padded on the left with zeros to four digits; a number
    of four digits or more is printed in full. *)
Theorem format_code_spec :
  format_code default_config 1 = "LUAL0001" /\
  format_code default_config 23 = "LUAL0023" /\
  format_code default_config 10000 = "LUAL10000" /\
  (forall cfg, INGRESSO_PREFIX cfg = None -> PREFIX cfg = "LUAL") /\
  (forall cfg p, INGRESSO_PREFIX cfg = Some p -> PREFIX cfg = p) /\
  (forall cfg n, 0 <= n ->
     format_code cfg n =
       PREFIX cfg ++ zeros (4 - length (decimal n)) ++ decimal n /\
     length (zeros (4 - length (decimal n)) ++ decimal n)
       = Nat.max 4 (length (decimal n)) /\
     ((4 <= length (decimal n))%nat ->
      format_code cfg n = PREFIX cfg ++ decimal n)).
Proof.
  repeat split; try reflexivity.
  - intros cfg H. unfold PREFIX. now rewrite H.
  - intros cfg p H. unfold PREFIX. now rewrite H.
  - unfold format_code, format_0d.
    destruct (Z.ltb_spec n 0) as [?|_]; [lia|].
    now rewrite <- decimal_nonneg.
  - rewrite length_append, length_zeros. lia.
  - intros Hlen. unfold format_code, format_0d.
    destruct (Z.ltb_spec n 0) as [?|_]; [lia|].
    rewrite <- decimal_nonneg by assumption.
    replace (4 - length (decimal n))%nat with 0%nat by lia.
    reflexivity.
Qed.

Lemma format_code_spec_witness :
  0 <= 10000 /\
  format_code default_config 10000 = PREFIX default_config ++ decimal 10000.
Proof.
  split; [lia|].
  destruct format_code_spec as (_ & _ & _ & _ & _ & H).
  destruct (H default_config 10000) as (_ & _ & H4); [lia|].
  apply H4. vm_compute. lia.
Defined.

(** ** Running handlers *)

Lemma run_emit_all {A} (evs : list event) (k : handler A) (st : db) :
  run (emit_all evs k) st =
  {| final_db := final_db (run k st);
     trace := (evs ++ trace (run k st))%list;
     returned := returned (run k st) |}.
Proof.
  induction evs as [|ev evs IH]; simpl.
  - now destruct (run k st).
  - rewrite IH. reflexivity.
Qed.

Lemma run_next_seq (st : db) :
  run next_seq st =
  {| final_db := st; trace := []; returned := ret (maxseq_of (select_max_seq st) + 1) |}.
Proof. reflexivity. Qed.

(** ** The table *)

Lemma fold_max_ge (xs : list Z) (x : Z) :
  x <= fold_left Z.max xs x /\ Forall (fun y => y <= fold_left Z.max xs x) xs.
Proof.
  revert x. induction xs as [|y ys IH]; intros x; simpl.
  - split; [lia | constructor].
  - destruct (IH (Z.max x y)) as [H1 H2]. split; [lia|].
    constructor; [lia | exact H2].
Qed.

Lemma fold_max_in (xs : list Z) (x : Z) :
  In (fold_left Z.max xs x) (x :: xs).
Proof.
  revert x. induction xs as [|y ys IH]; intros x; simpl.
  - now left.
  - destruct (IH (Z.max x y)) as [H|H].
    + destruct (Z.max_spec x y) as [[_ E]|[_ E]]; rewrite E in H |- *; tauto.
    + tauto.
Qed.

Lemma select_max_seq_bound (st : db) (r : ingresso) :
  In r st -> exists m, select_max_seq st = Some m /\ seq r <= m.
Proof.
  unfold select_max_seq. intros H.
  apply (in_map seq) in H.
  destruct (map seq st) as [|x xs]; [contradiction|].
  eexists. split; [reflexivity|].
  destruct (fold_max_ge xs x) as [H1 H2].
  destruct H as [<-|H]; [exact H1|].
  rewrite Forall_forall in H2. auto.
Qed.

Lemma select_max_seq_in (st : db) (m : Z) :
  select_max_seq st = Some m -> In m (map seq st).
Proof.
  unfold select_max_seq.
  destruct (map seq st) as [|x xs]; [discriminate|].
  intros [= <-]. apply fold_max_in.
Qed.

Lemma select_by_payment_none (st : db) (p : string) :
  select_by_payment st p = None <-> ~ In p (payment_refs st).
Proof.
  unfold select_by_payment, payment_refs.
  induction st as [|r st IH]; simpl.
  - tauto.
  - destruct (mp_payment_id r) as [q|]; simpl.
    + destruct (String.eqb_spec q p) as [->|Hne].
      * split; [discriminate | intros H; exfalso; apply H; now left].
      * rewrite IH. split; [intros H [E|I]; auto | tauto].
    + exact IH.
Qed.

Lemma payment_refs_app (a b : db) :
  payment_refs (a ++ b)%list = (payment_refs a ++ payment_refs b)%list.
Proof. unfold payment_refs. apply flat_map_app. Qed.

Lemma code_taken_false (st : db) (c : string) :
  code_taken st c = false <-> ~ In c (map codigo st).
Proof.
  unfold code_taken. induction st as [|r st IH]; simpl.
  - tauto.
  - destruct (String.eqb_spec (codigo r) c) as [->|Hne]; simpl.
    + split; [discriminate | intros H; exfalso; apply H; now left].
    + rewrite IH. split; [intros H [E|I]; auto | tauto].
Qed.

Lemma insert_ingresso_ok (st : db) (r : ingresso) :
  code_taken st (codigo r) = false -> insert_ingresso st r = ret (st ++ [r])%list.
Proof. unfold insert_ingresso, code_taken. now intros ->. Qed.

Lemma insert_ingresso_dup (st : db) (r : ingresso) :
  code_taken st (codigo r) = true -> insert_ingresso st r = raise IntegrityError.
Proof. unfold insert_ingresso, code_taken. now intros ->. Qed.

Lemma nodup_snoc {A} (l : list A) (x : A) :
  NoDup l -> ~ In x l -> NoDup (l ++ [x])%list.
Proof.
  induction l as [|a l IH]; simpl; intros Hl Hx.
  - constructor; [tauto | constructor].
  - inversion Hl as [|? ? Ha Hl']; subst.
    constructor.
    + rewrite in_app_iff. simpl. intros [H|[H|[]]]; [tauto|]. subst. tauto.
    + apply IH; tauto.
Qed.

(** ** The route *)

Section WebhookProperties.

Variable py_repr : json -> string.

Local Abbreviation py_str := (py_str py_repr).
Local Abbreviation issue := (issue py_repr).
Local Abbreviation webhook := (webhook py_repr).
Local Abbreviation reachable := (reachable py_repr).

(** The sequence number the route gives on table state [st]. *)
Local Abbreviation next_on st := (maxseq_of (select_max_seq st) + 1).

Lemma run_issue_ok cfg w pid email e st :
  makedirs w ingresso_dir = None ->
  is_int64 (next_on st) = true ->
  bind_text email = ret e ->
  code_taken st (format_code cfg (next_on st)) = false ->
  exists r,
    run (issue cfg w pid email) st =
      {| final_db := (st ++ [r])%list;
         trace := (MakeDirs ingresso_dir
                   :: snd (generate_image cfg w (codigo r))
                   ++ Committed r
                   :: send_ticket_mail cfg w (codigo r) email
                        (fst (generate_image cfg w (codigo r))))%list;
         returned := ret OK |} /\
    r = {| evento := "Lual na Praia";
           seq := next_on st;
           codigo := format_code cfg (next_on st);
           comprador_email := e;
           status := "pago";
           mp_payment_id := Some (py_str pid);
           created_at := utcnow w |}.
Proof.
  intros Hmk Hn He Hc. eexists. split; [|reflexivity].
  unfold issue. simpl.
  destruct (generate_image cfg w (format_code cfg (next_on st)))
    as [generated_path printed] eqn:G.
  rewrite Hmk. cbn [run logged]. rewrite (run_emit_all printed).
  unfold bind_int. rewrite Hn, He. cbn [rbind run].
  rewrite insert_ingresso_ok by exact Hc.
  rewrite (run_emit_all (send_ticket_mail _ _ _ _ _)). simpl.
  rewrite app_nil_r. reflexivity.
Qed.

(** An [issue] adds nothing, or one row with a new code, the next
    sequence number and the payment id as text. *)
Lemma issue_final_db cfg w pid email st :
  final_db (run (issue cfg w pid email) st) = st \/
  exists r,
    final_db (run (issue cfg w pid email) st) = (st ++ [r])%list /\
    seq r = next_on st /\
    codigo r = format_code cfg (seq r) /\
    mp_payment_id r = Some (py_str pid) /\
    status r = "pago" /\
    code_taken st (codigo r) = false /\
    In (Committed r) (trace (run (issue cfg w pid email) st)).
Proof.
  unfold issue. simpl.
  destruct (generate_image cfg w (format_code cfg (next_on st)))
    as [generated_path printed].
  destruct (makedirs w ingresso_dir) as [msg|]; [left; reflexivity|].
  cbn [run logged final_db trace]. rewrite (run_emit_all printed). cbn [final_db trace].
  unfold bind_int.
  destruct (is_int64 (next_on st)); [|left; reflexivity].
  destruct (bind_text email) as [err|e]; [left; reflexivity|].
  cbn [rbind run].
  match goal with |- context [insert_ingresso st ?r] => set (row := r) end.
  destruct (code_taken st (codigo row)) eqn:Hc.
  - rewrite insert_ingresso_dup by exact Hc. left. reflexivity.
  - rewrite insert_ingresso_ok by exact Hc. right. exists row.
    rewrite (run_emit_all (send_ticket_mail _ _ _ _ _)).
    cbn [final_db trace run].
    repeat split; try reflexivity; try exact Hc.
    right. apply in_or_app. right. now left.
Qed.

Lemma webhook_approved_new cfg w req st info s email :
  truthy (payment_id_of req) = true ->
  MP_SDK_AVAILABLE cfg = true ->
  fetch_payment w (payment_id_of req) = ret info ->
  read_payment info = ret (s, email) ->
  is_approved s = ret true ->
  select_by_payment st (py_str (payment_id_of req)) = None ->
  run (webhook cfg w req) st = run (issue cfg w (payment_id_of req) email) st.
Proof.
  intros Hid Hsdk Hf Hr Ha Hs. unfold webhook.
  rewrite Hid, Hsdk, Hf, Hr. cbn [negb rbind fst snd].
  rewrite Ha. cbn [rbind run]. rewrite Hs. reflexivity.
Qed.

Lemma webhook_approved_old cfg w req st info s email r :
  truthy (payment_id_of req) = true ->
  MP_SDK_AVAILABLE cfg = true ->
  fetch_payment w (payment_id_of req) = ret info ->
  read_payment info = ret (s, email) ->
  is_approved s = ret true ->
  select_by_payment st (py_str (payment_id_of req)) = Some r ->
  run (webhook cfg w req) st = acknowledged st [].
Proof.
  intros Hid Hsdk Hf Hr Ha Hs. unfold webhook.
  rewrite Hid, Hsdk, Hf, Hr. cbn [negb rbind fst snd].
  rewrite Ha. cbn [rbind run]. rewrite Hs. reflexivity.
Qed.

(** What a request does to the table: nothing, or the [issue] of a payment
    that had no row. *)
Lemma webhook_final_db cfg w req st :
  final_db (run (webhook cfg w req) st) = st \/
  (select_by_payment st (py_str (payment_id_of req)) = None /\
   exists email,
     run (webhook cfg w req) st =
     run (issue cfg w (payment_id_of req) email) st).
Proof.
  unfold webhook.
  destruct (truthy (payment_id_of req)); cbn [negb]; [|now left].
  destruct (MP_SDK_AVAILABLE cfg); cbn [negb]; [|now left].
  destruct (fetch_payment w (payment_id_of req)) as [e|info]; [now left|].
  destruct (read_payment info) as [e|[s email]]; cbn [rbind]; [now left|].
  cbn [fst snd]. destruct (is_approved s) as [e|[|]]; cbn [rbind];
    [now left| |now left].
  cbn [run].
  destruct (select_by_payment st (py_str (payment_id_of req))) eqn:Hs;
    [now left|].
  right. split; [reflexivity|]. now exists email.
Qed.

(** One request adds at most one row, for a payment that had none. *)
Lemma webhook_step cfg w req st :
  final_db (run (webhook cfg w req) st) = st \/
  exists r,
    final_db (run (webhook cfg w req) st) = (st ++ [r])%list /\
    seq r = next_on st /\
    codigo r = format_code cfg (seq r) /\
    mp_payment_id r = Some (py_str (payment_id_of req)) /\
    status r = "pago" /\
    code_taken st (codigo r) = false /\
    ~ In (py_str (payment_id_of req)) (payment_refs st) /\
    In (Committed r) (trace (run (webhook cfg w req) st)).
Proof.
  destruct (webhook_final_db cfg w req st) as [H|(Hs & email & H)]; [now left|].
  rewrite H.
  destruct (issue_final_db cfg w (payment_id_of req) email st)
    as [E|(r & E & H1 & H2 & H3 & H4 & H5 & H6)]; [now left|].
  right. exists r. repeat split; auto.
  now apply select_by_payment_none.
Qed.

Lemma fresh_code cfg st :
  well_numbered cfg st ->
  code_taken st (format_code cfg (next_on st)) = false.
Proof.
  intros Hw. apply code_taken_false. intros Hin.
  apply in_map_iff in Hin. destruct Hin as (r & Hc & Hr).
  unfold well_numbered in Hw. rewrite Forall_forall in Hw.
  rewrite (Hw r Hr) in Hc. apply format_code_inj in Hc.
  destruct (select_max_seq_bound st r Hr) as (m & Hm & Hle).
  rewrite Hm in Hc. simpl in Hc. lia.
Qed.

(** The invariant of the table under requests served one after the other. *)
Lemma reachable_inv cfg st :
  reachable cfg st ->
  well_numbered cfg st /\
  NoDup (payment_refs st) /\
  NoDup (map codigo st) /\
  Forall (fun r => mp_payment_id r <> None /\ status r = "pago") st.
Proof.
  induction 1 as [|st w req Hreach (Hw & Hp & Hc & Hn)].
  - repeat split; constructor.
  - destruct (webhook_step cfg w req st)
      as [E|(r & E & H1 & H2 & H3 & H4 & H5 & H6 & _)]; rewrite E.
    + repeat split; assumption.
    + repeat split.
      * apply Forall_app. split; [exact Hw | constructor; [exact H2 | constructor]].
      * rewrite payment_refs_app. unfold payment_refs at 2. simpl.
        rewrite H3. simpl. now apply nodup_snoc.
      * rewrite map_app. simpl. apply nodup_snoc; [exact Hc|].
        now apply code_taken_false.
      * apply Forall_app. split; [exact Hn|].
        constructor; [|constructor]. split; [congruence | exact H4].
Qed.

(** *** The payment id *)

Lemma extract_plain (kv : list (string * json)) (a : list (string * string)) :
  plain_payload (JDict kv) = true ->
  extract_payment_id (JDict kv) a =
  ret (match spec_payment_id (JDict kv) a with Some i => i | None => JNull end).
Proof.
  unfold plain_payload, extract_payment_id, spec_payment_id, cond_type,
    cond_topic, cond_data, rule_type, rule_topic, rule_query, data_id,
    args_payment_id, member, py_contains, py_getitem, has_key, and_then, rbind,
    or_else, is_dict.
  intros Hplain.
  destruct (lookup "data" kv) as [[| | | | |dkv]|]; try discriminate;
    destruct (lookup "type" kv) as [t|];
    try destruct (py_eq_str t "payment");
    try destruct (lookup "id" dkv) as [i|];
    try reflexivity;
    destruct (lookup "topic" kv) as [tp|];
    try destruct (py_eq_str tp "payment");
    destruct (lookup "id" kv) as [j|];
    try reflexivity;
    destruct (lookup "topic" a) as [qt|];
    try destruct (String.eqb qt "payment");
    try destruct (lookup "id" a) as [qi|];
    try destruct (String.eqb qi EmptyString);
    reflexivity.
Qed.

Lemma no_payment_id cfg w req st :
  truthy (payment_id_of req) = false ->
  run (webhook cfg w req) st = acknowledged st [].
Proof. intros H. unfold webhook. rewrite H. reflexivity. Qed.

(** C5, as amended.  On a payload that is a JSON object whose [data]
    member, when present, is an object, the payment id is the one the
    precedence gives: [type]/[data.id], then [topic]/[id], then [data.id],
    then the query parameters.  When no id comes out, as for the body
    [{}], the route answers [OK] and touches nothing. *)
Theorem payment_id_policy :
  (forall req, plain_payload (get_payload req) = true -> follows_policy req) /\
  (forall cfg w req st,
     truthy (payment_id_of req) = false ->
     run (webhook cfg w req) st = acknowledged st []) /\
  (forall cfg w st, run (webhook cfg w empty_request) st = acknowledged st []).
Proof.
  split; [|split].
  - intros req Hplain. unfold follows_policy, payment_id_of.
    destruct (get_payload req) as [| | | | |kv]; try discriminate.
    now rewrite extract_plain.
  - intros. now apply no_payment_id.
  - intros. now apply no_payment_id.
Qed.

(** *** Payments that are not approved *)

Lemma is_approved_text (t : string) :
  is_approved (JStr t) = ret (lower t =? "approved")%string.
Proof.
  unfold is_approved, truthy.
  destruct (String.eqb_spec t EmptyString) as [->|_]; reflexivity.
Qed.

(** A status that is neither empty nor a text makes line 227 raise; the
    exception leaves the route. *)
Lemma webhook_status_not_text cfg w req st info s email :
  truthy (payment_id_of req) = true ->
  MP_SDK_AVAILABLE cfg = true ->
  fetch_payment w (payment_id_of req) = ret info ->
  read_payment info = ret (s, email) ->
  is_approved s = raise AttributeError ->
  run (webhook cfg w req) st =
  {| final_db := st; trace := []; returned := raise AttributeError |}.
Proof.
  intros Hid Hsdk Hf Hr Ha. unfold webhook.
  rewrite Hid, Hsdk, Hf, Hr. cbn [negb rbind fst snd].
  rewrite Ha. reflexivity.
Qed.

(** With a payment id resolved, when the lookup at the payment provider
    raises, or the route can read the answer and line 227 finds its
    status not approved, the route answers [OK], leaves the table as it
    was, and does nothing but print: no image, no row, no mail. *)
Lemma webhook_not_approved cfg w req st :
  truthy (payment_id_of req) = true ->
  ((exists e, fetch_payment w (payment_id_of req) = raise e) \/
   (exists info s email,
      fetch_payment w (payment_id_of req) = ret info /\
      read_payment info = ret (s, email) /\
      is_approved s = ret false)) ->
  exists printed,
    run (webhook cfg w req) st = acknowledged st printed /\
    forallb is_printed printed = true.
Proof.
  intros Hid Hcase. unfold webhook. rewrite Hid. cbn [negb].
  destruct (MP_SDK_AVAILABLE cfg); cbn [negb].
  - destruct Hcase as [(e & Hf)|(info & s & email & Hf & Hr & Ha)]; rewrite Hf.
    + eexists. split; reflexivity.
    + rewrite Hr. cbn [rbind fst snd]. rewrite Ha.
      exists []. split; reflexivity.
  - eexists. split; reflexivity.
Qed.

(** *** Payments that already have a row *)

Lemma webhook_known_payment cfg w req st row :
  select_by_payment st (py_str (payment_id_of req)) = Some row ->
  final_db (run (webhook cfg w req) st) = st.
Proof.
  intros Hs.
  destruct (webhook_final_db cfg w req st) as [H|(Hn & _)]; [exact H|].
  congruence.
Qed.

(** C4. A webhook for a payment id that already has a row adds no row and
    leaves the table as it was; when the provider reports the payment
    approved again, the lookup by [mp_payment_id] finds the row and the
    route answers [OK] without any other effect. *)
Theorem webhook_replay cfg w req st row :
  select_by_payment st (py_str (payment_id_of req)) = Some row ->
  final_db (run (webhook cfg w req) st) = st /\
  (forall info s email,
     truthy (payment_id_of req) = true ->
     MP_SDK_AVAILABLE cfg = true ->
     fetch_payment w (payment_id_of req) = ret info ->
     read_payment info = ret (s, email) ->
     is_approved s = ret true ->
     run (webhook cfg w req) st = acknowledged st []).
Proof.
  intros Hs. split.
  - eapply webhook_known_payment; eauto.
  - intros. eapply webhook_approved_old; eauto.
Qed.

(** *** What is committed *)

Lemma generate_image_events cfg w code :
  forallb (fun ev => negb (is_mail ev))
          (snd (generate_image cfg w code)) = true /\
  forall r, ~ In (Committed r) (snd (generate_image cfg w code)).
Proof.
  unfold generate_image.
  destruct (PIL_AVAILABLE cfg && path_exists w base_path).
  - destruct (stamp w base_path _ _); simpl; split; try reflexivity;
      intros r [H|[]]; discriminate.
  - simpl. split; [reflexivity | tauto].
Qed.

Lemma send_ticket_mail_events cfg w code email generated :
  (exists m, send_ticket_mail cfg w code email generated = [SentMail m]) \/
  (exists e, send_ticket_mail cfg w code email generated =
             [Printed "Erro ao enviar e-mail:" (Some e)]).
Proof.
  unfold send_ticket_mail.
  destruct (build_message cfg w code email generated) as [e|m]; cbn [rbind].
  - right. now exists e.
  - destruct (mail_send w m) as [e|].
    + right. now exists e.
    + left. now exists m.
Qed.

(** A row committed by an [issue] is the one row it added. *)
Lemma issue_committed cfg w pid email st r :
  In (Committed r) (trace (run (issue cfg w pid email) st)) ->
  final_db (run (issue cfg w pid email) st) = (st ++ [r])%list /\
  seq r = next_on st /\
  mp_payment_id r = Some (py_str pid).
Proof.
  unfold issue. simpl.
  pose proof (generate_image_events cfg w (format_code cfg (next_on st)))
    as [_ Hgen].
  destruct (generate_image cfg w (format_code cfg (next_on st)))
    as [generated_path printed]. simpl in Hgen.
  destruct (makedirs w ingresso_dir) as [msg|]; [intros []|].
  cbn [run logged final_db trace]. rewrite (run_emit_all printed).
  cbn [final_db trace].
  unfold bind_int.
  destruct (is_int64 (next_on st)); cbn [rbind run trace].
  2: { rewrite app_nil_r. intros [H|H]; [discriminate | now apply Hgen in H]. }
  destruct (bind_text email) as [err|e]; cbn [rbind run trace].
  { rewrite app_nil_r. intros [H|H]; [discriminate | now apply Hgen in H]. }
  match goal with |- context [insert_ingresso st ?x] => set (row := x) end.
  destruct (insert_ingresso st row) as [err|st'] eqn:Hins; cbn [trace].
  { rewrite app_nil_r. intros [H|H]; [discriminate | now apply Hgen in H]. }
  unfold insert_ingresso in Hins.
  destruct (existsb _ st); [discriminate|]. injection Hins as <-.
  cbn [logged final_db trace].
  rewrite (run_emit_all (send_ticket_mail _ _ _ _ _)). cbn [final_db trace run].
  rewrite app_nil_r.
  intros [H|H]; [discriminate|].
  apply in_app_or in H. destruct H as [H|[H|H]].
  - now apply Hgen in H.
  - injection H as <-. repeat split.
  - destruct (send_ticket_mail_events cfg w (format_code cfg (next_on st))
                email generated_path) as [(m & E)|(e' & E)];
      rewrite E in H; destruct H as [H|[]]; discriminate.
Qed.

Lemma webhook_committed cfg w req st r :
  In (Committed r) (trace (run (webhook cfg w req) st)) ->
  final_db (run (webhook cfg w req) st) = (st ++ [r])%list /\
  seq r = next_on st /\
  mp_payment_id r = Some (py_str (payment_id_of req)).
Proof.
  unfold webhook.
  destruct (truthy (payment_id_of req)); cbn [negb];
    [|intros []].
  destruct (MP_SDK_AVAILABLE cfg); cbn [negb];
    [|intros [H|[]]; discriminate].
  destruct (fetch_payment w (payment_id_of req)) as [e|info];
    [intros [H|[]]; discriminate|].
  destruct (read_payment info) as [e|[s email]]; cbn [rbind]; [intros []|].
  cbn [fst snd]. destruct (is_approved s) as [e|[|]]; cbn [rbind];
    [intros [] | | intros []].
  cbn [run].
  destruct (select_by_payment st (py_str (payment_id_of req)));
    [intros []|].
  apply issue_committed.
Qed.

(** C9. [next_seq] reads the table and changes nothing; it returns 1 on
    the empty table and one more than the largest [seq] of a row otherwise.
    A row the route commits carries the number [next_seq] gives on the
    table as the request found it. *)
Theorem next_seq_spec :
  (forall st, final_db (run next_seq st) = st) /\
  returned (run next_seq []) = ret 1 /\
  (forall st, st <> [] ->
     exists m,
       In m (map seq st) /\
       (forall r, In r st -> seq r <= m) /\
       returned (run next_seq st) = ret (m + 1)) /\
  (forall cfg w req st r,
     In (Committed r) (trace (run (webhook cfg w req) st)) ->
     returned (run next_seq st) = ret (seq r)).
Proof.
  repeat split.
  - intros st Hne. destruct st as [|r0 st]; [contradiction|].
    destruct (select_max_seq_bound (r0 :: st) r0 (or_introl eq_refl))
      as (m & Hm & _).
    exists m. split; [now apply select_max_seq_in|]. split.
    + intros r Hr.
      destruct (select_max_seq_bound (r0 :: st) r Hr) as (m' & Hm' & Hle).
      congruence.
    + rewrite run_next_seq. cbn [returned]. now rewrite Hm.
  - intros cfg w req st r H.
    apply webhook_committed in H. destruct H as (_ & Hseq & _).
    rewrite run_next_seq. cbn [returned]. now rewrite Hseq.
Qed.

(** *** What the route answers *)

Lemma issue_returns cfg w pid email st a :
  returned (run (issue cfg w pid email) st) = ret a -> a = OK.
Proof.
  unfold issue. simpl.
  destruct (generate_image cfg w (format_code cfg (next_on st)))
    as [generated_path printed].
  destruct (makedirs w ingresso_dir) as [msg|]; [discriminate|].
  cbn [run logged returned]. rewrite (run_emit_all printed). cbn [returned].
  unfold bind_int.
  destruct (is_int64 (next_on st)); cbn [rbind run returned]; [|discriminate].
  destruct (bind_text email) as [err|e]; cbn [rbind run returned];
    [discriminate|].
  match goal with |- context [insert_ingresso st ?x] => set (row := x) end.
  destruct (insert_ingresso st row) as [err|st']; cbn [returned];
    [discriminate|].
  cbn [logged returned].
  rewrite (run_emit_all (send_ticket_mail _ _ _ _ _)). cbn [returned run].
  now intros [= <-].
Qed.

(** Every [return] of the route gives ["OK", 200]. *)
Lemma webhook_returns_ok cfg w req st a :
  returned (run (webhook cfg w req) st) = ret a -> a = OK.
Proof.
  unfold webhook.
  destruct (truthy (payment_id_of req)); cbn [negb];
    [|now intros [= <-]].
  destruct (MP_SDK_AVAILABLE cfg); cbn [negb]; [|now intros [= <-]].
  destruct (fetch_payment w (payment_id_of req)) as [e|info];
    [now intros [= <-]|].
  destruct (read_payment info) as [e|[s email]]; cbn [rbind]; [discriminate|].
  cbn [fst snd]. destruct (is_approved s) as [e|[|]]; cbn [rbind];
    [discriminate| |now intros [= <-]].
  cbn [run].
  destruct (select_by_payment st (py_str (payment_id_of req)));
    [now intros [= <-]|].
  apply issue_returns.
Qed.

(** The insert is not guarded: when the code of the new row is taken, the
    [IntegrityError] leaves the route. *)
Lemma webhook_code_taken cfg w req st info s email e :
  truthy (payment_id_of req) = true ->
  MP_SDK_AVAILABLE cfg = true ->
  fetch_payment w (payment_id_of req) = ret info ->
  read_payment info = ret (s, email) ->
  is_approved s = ret true ->
  bind_text email = ret e ->
  select_by_payment st (py_str (payment_id_of req)) = None ->
  makedirs w ingresso_dir = None ->
  is_int64 (next_on st) = true ->
  code_taken st (format_code cfg (next_on st)) = true ->
  returned (run (webhook cfg w req) st) = raise IntegrityError /\
  final_db (run (webhook cfg w req) st) = st.
Proof.
  intros Hid Hsdk Hf Hr Ha He Hs Hmk Hn Hc.
  rewrite (webhook_approved_new cfg w req st info s email) by assumption.
  unfold issue. simpl.
  destruct (generate_image cfg w (format_code cfg (next_on st)))
    as [generated_path printed].
  rewrite Hmk. cbn [run logged returned final_db]. rewrite (run_emit_all printed).
  cbn [returned final_db].
  unfold bind_int. rewrite Hn, He. cbn [rbind run].
  rewrite insert_ingresso_dup by exact Hc. split; reflexivity.
Qed.

(** *** Approved payments without a row *)

Lemma read_payment_dict kv pk :
  py_get (JDict kv) "payer" (JDict []) = ret (JDict pk) ->
  read_payment (JDict kv) =
  ret (field kv "status",
       first_truthy [field pk "email"; field kv "payer_email"]
                    (JStr "sem-email@local")).
Proof.
  unfold read_payment, py_get, field. intros Hp.
  destruct (lookup "status" kv); cbn [rbind];
    (destruct (lookup "payer" kv) as [payer|]; injection Hp as ->;
     cbn [rbind]; destruct (lookup "email" pk); cbn [rbind first_truthy];
     try destruct (truthy j0); try destruct (truthy j); try reflexivity;
     destruct (lookup "payer_email" kv) as [flat|]; cbn [rbind];
     try destruct (truthy flat); reflexivity).
Qed.

(** The request that issues: an approved payment without a row, on a
    table the route itself has filled. *)
Lemma webhook_issue_run cfg w req st info s email e :
  reachable cfg st ->
  truthy (payment_id_of req) = true ->
  MP_SDK_AVAILABLE cfg = true ->
  fetch_payment w (payment_id_of req) = ret info ->
  read_payment info = ret (s, email) ->
  is_approved s = ret true ->
  bind_text email = ret e ->
  select_by_payment st (py_str (payment_id_of req)) = None ->
  makedirs w ingresso_dir = None ->
  is_int64 (next_on st) = true ->
  exists r,
    run (webhook cfg w req) st =
      {| final_db := (st ++ [r])%list;
         trace := (MakeDirs ingresso_dir
                   :: snd (generate_image cfg w (codigo r))
                   ++ Committed r
                   :: send_ticket_mail cfg w (codigo r) email
                        (fst (generate_image cfg w (codigo r))))%list;
         returned := ret OK |} /\
    r = {| evento := "Lual na Praia";
           seq := next_on st;
           codigo := format_code cfg (next_on st);
           comprador_email := e;
           status := "pago";
           mp_payment_id := Some (py_str (payment_id_of req));
           created_at := utcnow w |}.
Proof.
  intros Hreach Hid Hsdk Hf Hr Ha He Hs Hmk Hn.
  rewrite (webhook_approved_new cfg w req st info s email) by assumption.
  apply run_issue_ok; try assumption.
  apply fresh_code. now apply reachable_inv.
Qed.

(** C3, as amended.  On a table the route has filled serving requests one
    after the other, take a webhook whose payment id has no row yet and
    whose payment the provider reports approved, in any letter case, in an
    answer whose payer is an object or absent and whose resolved address
    is a text; the directory of the images can be made and the next
    sequence number is a 64-bit integer.  The route then adds exactly one
    row and answers [OK].  The address of the row is the payer's [email],
    else the [payer_email] field, else the placeholder; its status is
    ["pago"]; its [mp_payment_id] is the payment id as text. *)
Theorem webhook_issues_ticket cfg w req st kv pk s e :
  reachable cfg st ->
  truthy (payment_id_of req) = true ->
  MP_SDK_AVAILABLE cfg = true ->
  fetch_payment w (payment_id_of req) = ret (JDict kv) ->
  py_get (JDict kv) "payer" (JDict []) = ret (JDict pk) ->
  field kv "status" = JStr s ->
  lower s = "approved" ->
  first_truthy [field pk "email"; field kv "payer_email"]
               (JStr "sem-email@local") = JStr e ->
  select_by_payment st (py_str (payment_id_of req)) = None ->
  makedirs w ingresso_dir = None ->
  is_int64 (next_on st) = true ->
  exists r,
    final_db (run (webhook cfg w req) st) = (st ++ [r])%list /\
    returned (run (webhook cfg w req) st) = ret OK /\
    comprador_email r = e /\
    status r = "pago" /\
    mp_payment_id r = Some (py_str (payment_id_of req)) /\
    seq r = next_on st /\
    codigo r = format_code cfg (seq r) /\
    evento r = "Lual na Praia" /\
    created_at r = utcnow w.
Proof.
  intros Hreach Hid Hsdk Hf Hp Hst Hlow Hmail Hs Hmk Hn.
  pose proof (read_payment_dict kv pk Hp) as Hr.
  rewrite Hst, Hmail in Hr.
  destruct (webhook_issue_run cfg w req st (JDict kv) (JStr s) (JStr e) e)
    as (r & Hrun & ->); try assumption; try reflexivity.
  - rewrite is_approved_text, Hlow. reflexivity.
  - eexists. rewrite Hrun. cbn. repeat split.
Qed.

(** Once the directory of the images is made, what the image library and
    the mail transport do changes neither the row nor the answer: the row
    is committed and the route answers [OK].  A failure of the image is
    printed before the commit; the mail is tried after the commit, and its
    failure is printed. *)
Lemma issuance_survives_failures cfg w req st info s email e :
  reachable cfg st ->
  truthy (payment_id_of req) = true ->
  MP_SDK_AVAILABLE cfg = true ->
  fetch_payment w (payment_id_of req) = ret info ->
  read_payment info = ret (s, email) ->
  is_approved s = ret true ->
  bind_text email = ret e ->
  select_by_payment st (py_str (payment_id_of req)) = None ->
  makedirs w ingresso_dir = None ->
  is_int64 (next_on st) = true ->
  exists r before after,
    final_db (run (webhook cfg w req) st) = (st ++ [r])%list /\
    returned (run (webhook cfg w req) st) = ret OK /\
    trace (run (webhook cfg w req) st) = (before ++ Committed r :: after)%list /\
    forallb (fun ev => negb (is_mail ev)) before = true /\
    ((exists m, after = [SentMail m]) \/
     (exists err, after = [Printed "Erro ao enviar e-mail:" (Some err)])) /\
    (forall err,
       mail_send w = (fun _ => Some err) ->
       exists err', after = [Printed "Erro ao enviar e-mail:" (Some err')]) /\
    (forall err,
       PIL_AVAILABLE cfg = true ->
       path_exists w base_path = true ->
       stamp w = (fun _ _ _ => Some err) ->
       before = [MakeDirs ingresso_dir;
                 Printed "Erro ao gerar imagem carimbada:" (Some err)]).
Proof.
  intros Hreach Hid Hsdk Hf Hr Ha He Hs Hmk Hn.
  destruct (webhook_issue_run cfg w req st info s email e)
    as (r & Hrun & Hrow); try assumption.
  exists r.
  exists (MakeDirs ingresso_dir :: snd (generate_image cfg w (codigo r))).
  exists (send_ticket_mail cfg w (codigo r) email
            (fst (generate_image cfg w (codigo r)))).
  rewrite Hrun. cbn [final_db returned trace].
  split; [reflexivity|]. split; [reflexivity|]. split; [reflexivity|].
  split; [|split; [|split]].
  - cbn [forallb is_mail negb andb].
    apply (generate_image_events cfg w (codigo r)).
  - apply send_ticket_mail_events.
  - intros err Hsend. unfold send_ticket_mail.
    destruct (build_message cfg w (codigo r) email _) as [err'|m];
      cbn [rbind].
    + now exists err'.
    + rewrite Hsend. now exists err.
  - intros err Hpil Hbase Hstamp. unfold generate_image.
    rewrite Hpil, Hbase, Hstamp. reflexivity.
Qed.

(** *** One ticket for each payment *)

Lemma tickets_of_absent st p :
  ~ In p (payment_refs st) -> tickets_of st p = [].
Proof.
  unfold tickets_of, payment_refs, has_ref.
  induction st as [|r st IH]; simpl; intros H; [reflexivity|].
  destruct (mp_payment_id r) as [q|]; simpl in H.
  - destruct (String.eqb_spec q p) as [->|_]; [tauto|]. apply IH. tauto.
  - apply IH. exact H.
Qed.

Lemma nodup_tickets st p :
  NoDup (payment_refs st) -> (List.length (tickets_of st p) <= 1)%nat.
Proof.
  induction st as [|r st IH]; intros Hnd; [simpl; lia|].
  unfold tickets_of, payment_refs in *. simpl in *.
  unfold has_ref at 1.
  destruct (mp_payment_id r) as [q|]; simpl in Hnd.
  - inversion Hnd as [|? ? Hq Hnd']; subst.
    destruct (String.eqb_spec q p) as [->|_]; [|now apply IH].
    simpl. fold (payment_refs st) in Hq.
    pose proof (tickets_of_absent st p Hq) as E.
    unfold tickets_of in E. rewrite E. simpl. lia.
  - now apply IH.
Qed.

Lemma tickets_of_found st p :
  tickets_of st p <> [] -> exists row, select_by_payment st p = Some row.
Proof.
  unfold tickets_of, select_by_payment, has_ref.
  induction st as [|r st IH]; simpl; intros H; [contradiction|].
  destruct (mp_payment_id r) as [q|].
  - destruct (q =? p)%string; [now exists r | now apply IH].
  - now apply IH.
Qed.

Lemma insert_fails_iff st r :
  insert_ingresso st r = raise IntegrityError <-> code_taken st (codigo r) = true.
Proof.
  unfold insert_ingresso, code_taken.
  destruct (existsb _ st); split; intros H; try reflexivity; discriminate.
Qed.

(** C2, as amended.  In every table state the route reaches when requests
    are served one after the other, no two rows carry the same
    [mp_payment_id], so a payment id has at most one ticket.  The insert
    itself fails exactly when the code is taken ([codigo] is the only
    [UNIQUE] column); the payment reference is kept unique by the lookup
    the route makes before it inserts. *)
Theorem payment_ref_unique cfg st :
  reachable cfg st ->
  NoDup (payment_refs st) /\
  NoDup (map codigo st) /\
  (forall pid, (List.length (tickets_of st pid) <= 1)%nat) /\
  (forall r, insert_ingresso st r = raise IntegrityError <->
             code_taken st (codigo r) = true) /\
  (forall w req r,
     In (Committed r) (trace (run (webhook cfg w req) st)) ->
     exists pid, mp_payment_id r = Some pid /\ select_by_payment st pid = None).
Proof.
  intros Hreach.
  destruct (reachable_inv cfg st Hreach) as (_ & Hp & Hc & _).
  repeat split; try assumption.
  - intros pid. now apply nodup_tickets.
  - now apply insert_fails_iff.
  - now apply insert_fails_iff.
  - intros w req r Hin.
    destruct (webhook_committed cfg w req st r Hin) as (Hdb & _ & Href).
    eexists. split; [exact Href|].
    destruct (webhook_final_db cfg w req st) as [E|(Hn & _)]; [|exact Hn].
    rewrite E in Hdb. exfalso.
    apply (f_equal (@List.length ingresso)) in Hdb.
    rewrite length_app in Hdb. simpl in Hdb. lia.
Qed.

Lemma decimal_round_trip (n : Z) : number_of_text (decimal n) = Some n.
Proof.
  unfold number_of_text, decimal.
  rewrite NilZero.isi.
  - simpl. f_equal. apply DecimalZ.of_to.
  - destruct n as [|p|p]; simpl; try discriminate.
    intros [= H]. now apply (DecimalPos.Unsigned.to_uint_nonnil p).
  - destruct n as [|p|p]; simpl; try discriminate.
    intros [= H]. now apply (DecimalPos.Unsigned.to_uint_nonnil p).
Qed.

Lemma decimal_inj (a b : Z) : decimal a = decimal b -> a = b.
Proof.
  intros H. apply (f_equal number_of_text) in H.
  rewrite !decimal_round_trip in H. now injection H.
Qed.

(** Two deliveries whose ids have the same text. *)
Lemma same_text_one_ticket cfg w1 w2 req1 req2 st :
  reachable cfg st ->
  py_str (payment_id_of req1) = py_str (payment_id_of req2) ->
  (List.length
     (tickets_of
        (final_db (run (webhook cfg w2 req2)
                     (final_db (run (webhook cfg w1 req1) st))))
        (py_str (payment_id_of req1))) <= 1)%nat /\
  (tickets_of (final_db (run (webhook cfg w1 req1) st))
     (py_str (payment_id_of req1)) <> [] ->
   final_db (run (webhook cfg w2 req2)
               (final_db (run (webhook cfg w1 req1) st)))
   = final_db (run (webhook cfg w1 req1) st)).
Proof.
  intros Hreach Hkey. split.
  - apply nodup_tickets. apply (reachable_inv cfg).
    do 2 constructor. exact Hreach.
  - intros Hne. apply tickets_of_found in Hne. destruct Hne as (row & Hrow).
    rewrite Hkey in Hrow. eapply webhook_known_payment; eauto.
Qed.


End WebhookProperties.

(** ** Two requests at the same time *)

(** C1. Two approved payments, "1" and "2", are notified at the same time
    on the empty table.  Each request looks its payment up and reads the
    largest [seq] before the other inserts; the first commits [LUAL0001],
    the insert of the second raises [IntegrityError], nothing catches it
    and the provider is answered 500. *)
Theorem webhook_race_surfaces_integrity_error :
  let first := webhook sample_repr default_config (calm_world "approved")
                 (payment_request (JStr "1")) in
  let second := webhook sample_repr default_config (calm_world "approved")
                  (payment_request (JStr "2")) in
  race [true; true; false; false] first second [] =
    (ret OK, raise IntegrityError, [sample_row 1 "1"]) /\
  status_code (raise IntegrityError) = 500.
Proof. split; reflexivity. Qed.

(** The same request twice at the same time: both look the payment up
    before either inserts, and the payment gets two tickets. *)
Lemma race_same_payment_two_rows :
  let delivery := webhook sample_repr default_config (calm_world "approved")
                    (payment_request (JStr "1")) in
  race [true; false] delivery delivery [] =
    (ret OK, ret OK, [sample_row 1 "1"; sample_row 2 "1"]).
Proof. reflexivity. Qed.

(** ** Exceptions that leave the route *)

(** C6. Two answers of the provider for a payment that is not approved.
    For a payment it does not know, the answer carries the number 404 as
    status: line 227 calls [lower] on it and raises [AttributeError].  For
    a pending payment whose payer is [null], line 225 calls [get] on it
    and raises [AttributeError].  Both lines are outside any [try]: no row
    is written and nothing else is done, but the provider is answered 500
    instead of [OK]. *)
Theorem unapproved_answer_surfaces_error :
  run (webhook sample_repr default_config not_found_world
         (payment_request (JStr "999"))) [] =
    {| final_db := []; trace := []; returned := raise AttributeError |} /\
  run (webhook sample_repr default_config pending_null_payer_world
         (payment_request (JStr "999"))) [] =
    {| final_db := []; trace := []; returned := raise AttributeError |} /\
  status_code (raise AttributeError) = 500.
Proof. repeat split. Qed.

(** C7. An approved payment on the empty table, when the directory of the
    images cannot be made: [os.makedirs] (line 243) opens the block that
    generates the image and is outside every [try], so its [OSError]
    leaves the route before the insert.  No row is written, no mail is
    sent, and the provider is answered 500. *)
Theorem makedirs_failure_aborts_issuance :
  run (webhook sample_repr default_config readonly_world
         (payment_request (JStr "999"))) [] =
    {| final_db := [];
       trace := [];
       returned := raise (OSError "Read-only file system") |} /\
  status_code (raise (OSError "Read-only file system")) = 500.
Proof. split; reflexivity. Qed.

(** ** Instances *)

Lemma next_seq_spec_witness :
  In (Committed (sample_row 1 "999"))
     (trace (run (webhook sample_repr default_config (calm_world "approved")
                    (payment_request (JStr "999"))) [])) /\
  returned (run next_seq []) = ret (seq (sample_row 1 "999")).
Proof.
  assert (H : In (Committed (sample_row 1 "999"))
     (trace (run (webhook sample_repr default_config (calm_world "approved")
                    (payment_request (JStr "999"))) []))).
  { right. right. left. reflexivity. }
  split; [exact H|].
  exact (proj2 (proj2 (proj2 (next_seq_spec sample_repr))) _ _ _ _ _ H).
Defined.

Lemma webhook_not_approved_witness :
  truthy (payment_id_of (payment_request (JStr "999"))) = true /\
  exists printed,
    run (webhook sample_repr default_config (calm_world "pending")
           (payment_request (JStr "999"))) [] = acknowledged [] printed /\
    forallb is_printed printed = true.
Proof.
  split; [reflexivity|].
  apply (webhook_not_approved sample_repr default_config
           (calm_world "pending") (payment_request (JStr "999")) []).
  - reflexivity.
  - right.
    exists (JDict [("status", JStr "pending");
                   ("payer", JDict [("email", JStr "a@b.com")])]).
    exists (JStr "pending"). exists (JStr "a@b.com").
    repeat split; reflexivity.
Defined.

Lemma webhook_replay_witness :
  select_by_payment [sample_row 1 "999"]
    (py_str sample_repr (payment_id_of (payment_request (JInt 999))))
    = Some (sample_row 1 "999") /\
  final_db (run (webhook sample_repr default_config (calm_world "approved")
                   (payment_request (JInt 999))) [sample_row 1 "999"])
    = [sample_row 1 "999"].
Proof.
  split; [reflexivity|].
  apply (webhook_replay sample_repr default_config (calm_world "approved")
           (payment_request (JInt 999)) [sample_row 1 "999"]
           (sample_row 1 "999")).
  reflexivity.
Defined.

Lemma payment_id_policy_witness :
  plain_payload (get_payload (payment_request (JStr "999"))) = true /\
  follows_policy (payment_request (JStr "999")).
Proof.
  split; [reflexivity|].
  apply (proj1 (payment_id_policy sample_repr)). reflexivity.
Defined.

(** The body [{"type":"payment","data":null,"topic":"payment","id":"7"}]:
    the policy gives the id "7" by its second rule; the test of line 194
    raises on [data], and the route goes on without an id. *)
Lemma payment_id_policy_counterexample : ~ follows_policy null_data_request.
Proof. unfold follows_policy. vm_compute. discriminate. Qed.

Lemma webhook_issues_ticket_witness :
  reachable sample_repr default_config [] /\
  exists r,
    final_db (run (webhook sample_repr default_config (calm_world "approved")
                     (payment_request (JStr "999"))) []) = [r] /\
    comprador_email r = "a@b.com" /\
    status r = "pago" /\
    mp_payment_id r = Some "999".
Proof.
  split; [constructor|].
  destruct (webhook_issues_ticket sample_repr default_config
              (calm_world "approved") (payment_request (JStr "999")) []
              [("status", JStr "approved");
               ("payer", JDict [("email", JStr "a@b.com")])]
              [("email", JStr "a@b.com")] "approved" "a@b.com")
    as (r & H1 & _ & H3 & H4 & H5 & _);
    try reflexivity; [constructor|].
  exists r. repeat split; assumption.
Defined.

(** The row issued for payment "999" does not carry the status ["paid"]. *)
Lemma webhook_issues_ticket_counterexample :
  ~ exists r,
      final_db (run (webhook sample_repr default_config (calm_world "approved")
                       (payment_request (JStr "999"))) []) = [r] /\
      comprador_email r = "a@b.com" /\
      status r = "paid" /\
      mp_payment_id r = Some "999".
Proof.
  intros (r & Hdb & _ & Hst & _).
  vm_compute in Hdb. injection Hdb as <-. discriminate Hst.
Qed.

Lemma issuance_survives_failures_witness :
  reachable sample_repr default_config [] /\
  exists r,
    final_db (run (webhook sample_repr default_config rough_world
                     (payment_request (JStr "999"))) []) = [r] /\
    returned (run (webhook sample_repr default_config rough_world
                     (payment_request (JStr "999"))) []) = ret OK.
Proof.
  split; [constructor|].
  destruct (issuance_survives_failures sample_repr default_config rough_world
              (payment_request (JStr "999")) []
              (JDict [("status", JStr "approved");
                      ("payer", JDict [("email", JStr "a@b.com")])])
              (JStr "approved") (JStr "a@b.com") "a@b.com")
    as (r & before & after & H1 & H2 & _);
    try reflexivity; [constructor|].
  exists r. split; assumption.
Defined.

Lemma payment_ref_unique_witness :
  reachable sample_repr default_config [sample_row 1 "999"] /\
  NoDup (payment_refs [sample_row 1 "999"]).
Proof.
  assert (H : reachable sample_repr default_config [sample_row 1 "999"]).
  { exact (reach_serve sample_repr default_config []
             (calm_world "approved") (payment_request (JStr "999"))
             (reach_init sample_repr default_config)). }
  split; [exact H|].
  apply (payment_ref_unique sample_repr default_config _ H).
Defined.

(** A second row for payment "999" under another code is accepted. *)
Lemma payment_ref_unique_counterexample :
  ~ insert_guards_uniqueness [sample_row 1 "999"] (sample_row 2 "999").
Proof.
  unfold insert_guards_uniqueness. intros H.
  assert (E : insert_ingresso [sample_row 1 "999"] (sample_row 2 "999")
              = raise IntegrityError).
  { apply H. right. exists "999". split; [reflexivity | now left]. }
  vm_compute in E. discriminate E.
Qed.


(** * Further properties *)

(** ** Codes and the table *)

(** X1. For one prefix, two sequence numbers have the same code only when
    they are the same number, negative numbers included. *)
Theorem distinct_seq_distinct_code (cfg : config) (a b : Z) :
  format_code cfg a = format_code cfg b <-> a = b.
Proof.
  split; [apply format_code_inj | now intros ->].
Qed.

Lemma fold_max_app (xs ys : list Z) (x : Z) :
  fold_left Z.max (xs ++ ys) x = fold_left Z.max ys (fold_left Z.max xs x).
Proof. apply fold_left_app. Qed.

Lemma select_max_seq_snoc (st : db) (r : ingresso) :
  select_max_seq (st ++ [r])%list =
  Some (match select_max_seq st with
        | Some m => Z.max m (seq r)
        | None => seq r
        end).
Proof.
  unfold select_max_seq. rewrite map_app. simpl.
  destruct (map seq st) as [|x xs]; simpl; [reflexivity|].
  now rewrite fold_max_app.
Qed.

Lemma select_by_payment_found (st : db) (p : string) :
  In p (payment_refs st) -> exists row, select_by_payment st p = Some row.
Proof.
  intros Hin. destruct (select_by_payment st p) as [row|] eqn:E.
  - now exists row.
  - apply select_by_payment_none in E. contradiction.
Qed.

(** X12. An accepted insert appends the row and nothing else: a lookup by
    its payment reference then finds a row, the largest [seq] is the larger
    of the old maximum and the new number, and codes that were pairwise
    distinct stay so. *)
Theorem insert_then_lookup (st st' : db) (r : ingresso) :
  insert_ingresso st r = ret st' ->
  st' = (st ++ [r])%list /\
  (forall p, mp_payment_id r = Some p ->
             exists row, select_by_payment st' p = Some row) /\
  select_max_seq st' =
    Some (match select_max_seq st with
          | Some m => Z.max m (seq r)
          | None => seq r
          end) /\
  (NoDup (map codigo st) -> NoDup (map codigo st')).
Proof.
  unfold insert_ingresso. intros H.
  destruct (existsb _ st) eqn:Hc; [discriminate|].
  injection H as <-. split; [reflexivity|]. split; [|split].
  - intros p Hp. apply select_by_payment_found.
    rewrite payment_refs_app. apply in_or_app. right.
    unfold payment_refs. simpl. rewrite Hp. now left.
  - apply select_max_seq_snoc.
  - intros Hnd. rewrite map_app. simpl. apply nodup_snoc; [exact Hnd|].
    now apply code_taken_false.
Qed.

Lemma insert_then_lookup_witness :
  insert_ingresso [sample_row 1 "999"] (sample_row 2 "1000")
    = ret [sample_row 1 "999"; sample_row 2 "1000"] /\
  select_max_seq [sample_row 1 "999"; sample_row 2 "1000"] = Some 2.
Proof.
  assert (H : insert_ingresso [sample_row 1 "999"] (sample_row 2 "1000")
              = ret [sample_row 1 "999"; sample_row 2 "1000"])
    by reflexivity.
  split; [exact H|].
  exact (proj1 (proj2 (proj2 (insert_then_lookup _ _ _ H)))).
Defined.

Lemma first_numbers_S (n : nat) :
  first_numbers (S n) = (first_numbers n ++ [Z.of_nat (S n)])%list.
Proof.
  unfold first_numbers. rewrite seq_S, map_app. reflexivity.
Qed.

Lemma in_first_numbers (n : nat) (m : Z) :
  In m (first_numbers n) <-> 1 <= m <= Z.of_nat n.
Proof.
  unfold first_numbers. rewrite in_map_iff. split.
  - intros (k & <- & Hk). apply in_seq in Hk. lia.
  - intros H. exists (Z.to_nat m). split; [lia|]. apply in_seq. lia.
Qed.

(** On a table numbered [1 .. n] the largest number is [n]. *)
Lemma maxseq_first_numbers (st : db) :
  map seq st = first_numbers (List.length st) ->
  maxseq_of (select_max_seq st) = Z.of_nat (List.length st).
Proof.
  intros Hseq. destruct st as [|r0 st]; [reflexivity|].
  set (tbl := r0 :: st) in *.
  destruct (select_max_seq_bound tbl r0 (or_introl eq_refl)) as (m & Hm & _).
  rewrite Hm. simpl maxseq_of.
  pose proof (select_max_seq_in tbl m Hm) as Hin.
  rewrite Hseq in Hin. apply in_first_numbers in Hin.
  assert (Hn : In (Z.of_nat (List.length tbl)) (map seq tbl)).
  { rewrite Hseq. apply in_first_numbers. simpl. lia. }
  apply in_map_iff in Hn. destruct Hn as (r & Hr & Hrin).
  destruct (select_max_seq_bound tbl r Hrin) as (m' & Hm' & Hle).
  rewrite Hm in Hm'. injection Hm' as <-. lia.
Qed.

(** ** The route, further *)

Section MoreWebhookProperties.

Variable py_repr : json -> string.

Local Abbreviation py_str := (py_str py_repr).
Local Abbreviation issue := (issue py_repr).
Local Abbreviation webhook := (webhook py_repr).
Local Abbreviation reachable := (reachable py_repr).
Local Abbreviation serve_all := (serve_all py_repr).
Local Abbreviation delivery_key := (delivery_key py_repr).
Local Abbreviation next_on st := (maxseq_of (select_max_seq st) + 1).

Lemma reachable_seq cfg st :
  reachable cfg st -> map seq st = first_numbers (List.length st).
Proof.
  induction 1 as [|st w req Hreach IH]; [reflexivity|].
  destruct (webhook_step py_repr cfg w req st)
    as [E|(r & E & Hseq & _)]; rewrite E; [exact IH|].
  rewrite map_app, length_app, IH. simpl.
  rewrite Nat.add_1_r, first_numbers_S. f_equal.
  rewrite Hseq, (maxseq_first_numbers st IH). f_equal. lia.
Qed.

Lemma reachable_next cfg st :
  reachable cfg st -> next_on st = Z.of_nat (List.length st) + 1.
Proof.
  intros H. now rewrite (maxseq_first_numbers st (reachable_seq cfg st H)).
Qed.

(** X2. Served one request after the other from the empty table, the rows
    are numbered 1, 2, ..., n without a gap, in the order they were
    issued; the code of each row is the formatted number; every row has
    the status ["pago"] and a payment reference. *)
Theorem reachable_numbering cfg st :
  reachable cfg st ->
  map seq st = first_numbers (List.length st) /\
  map codigo st = map (format_code cfg) (first_numbers (List.length st)) /\
  Forall (fun r => status r = "pago" /\ mp_payment_id r <> None) st.
Proof.
  intros Hreach.
  destruct (reachable_inv py_repr cfg st Hreach) as (Hw & _ & _ & Hn).
  split; [now apply (reachable_seq cfg)|]. split.
  - rewrite <- (reachable_seq cfg st Hreach), map_map.
    apply map_ext_in. intros r Hr.
    unfold well_numbered in Hw. rewrite Forall_forall in Hw. now apply Hw.
  - eapply Forall_impl; [|exact Hn]. simpl. tauto.
Qed.

(** X5. A request never removes or changes a row: the table it leaves
    starts with the table it found and has at most one row more. *)
Theorem webhook_only_appends cfg w req st :
  firstn (List.length st) (final_db (run (webhook cfg w req) st)) = st /\
  (List.length (final_db (run (webhook cfg w req) st))
     <= List.length st + 1)%nat.
Proof.
  destruct (webhook_step py_repr cfg w req st) as [E|(r & E & _)]; rewrite E.
  - rewrite firstn_all. split; [reflexivity | lia].
  - rewrite firstn_app, firstn_all, Nat.sub_diag, length_app. simpl.
    rewrite app_nil_r. split; [reflexivity | lia].
Qed.

(** X6. Delivering a request again, in the same world, leaves the table
    as the first delivery left it, whatever the table and the request. *)
Theorem redelivery_changes_nothing cfg w req st :
  final_db (run (webhook cfg w req) (final_db (run (webhook cfg w req) st)))
  = final_db (run (webhook cfg w req) st).
Proof.
  destruct (webhook_step py_repr cfg w req st)
    as [E|(r & E & _ & _ & Href & _)]; rewrite E.
  - exact E.
  - assert (Hin : In (py_str (payment_id_of req))
                     (payment_refs (st ++ [r])%list)).
    { rewrite payment_refs_app. apply in_or_app. right.
      unfold payment_refs. simpl. rewrite Href. now left. }
    apply select_by_payment_found in Hin. destruct Hin as (row & Hrow).
    eapply webhook_known_payment; eauto.
Qed.

(** *** Exceptions *)

Lemma py_get_raises v k d e : py_get v k d = raise e -> e = AttributeError.
Proof.
  unfold py_get. destruct v; try (now intros [= <-]).
  destruct (lookup k kv); discriminate.
Qed.

Lemma read_payment_raises info e :
  read_payment info = raise e -> e = AttributeError.
Proof.
  unfold read_payment.
  destruct (py_get info "status" JNull) as [e1|s] eqn:E1; cbn [rbind].
  { intros [= <-]. eapply py_get_raises; eauto. }
  destruct (py_get info "payer" (JDict [])) as [e2|payer] eqn:E2; cbn [rbind].
  { intros [= <-]. eapply py_get_raises; eauto. }
  destruct (py_get payer "email" JNull) as [e3|email] eqn:E3; cbn [rbind].
  { intros [= <-]. eapply py_get_raises; eauto. }
  destruct (truthy email); [discriminate|].
  destruct (py_get info "payer_email" JNull) as [e4|flat] eqn:E4; cbn [rbind].
  { intros [= <-]. eapply py_get_raises; eauto. }
  destruct (truthy flat); discriminate.
Qed.

(** The address the route resolves is never empty. *)
Lemma read_payment_truthy info s email :
  read_payment info = ret (s, email) -> truthy email = true.
Proof.
  unfold read_payment.
  destruct (py_get info "status" JNull) as [e1|s']; cbn [rbind];
    [discriminate|].
  destruct (py_get info "payer" (JDict [])) as [e2|payer]; cbn [rbind];
    [discriminate|].
  destruct (py_get payer "email" JNull) as [e3|em]; cbn [rbind];
    [discriminate|].
  destruct (truthy em) eqn:T1; [now intros [= _ <-]|].
  destruct (py_get info "payer_email" JNull) as [e4|flat]; cbn [rbind];
    [discriminate|].
  destruct (truthy flat) eqn:T2; [now intros [= _ <-]|].
  now intros [= _ <-].
Qed.

Lemma is_approved_raises s e : is_approved s = raise e -> e = AttributeError.
Proof.
  unfold is_approved. destruct (truthy s); [|discriminate].
  destruct s; try discriminate; now intros [= <-].
Qed.

Lemma bind_text_raises v e :
  bind_text v = raise e ->
  e = OverflowError \/ e = BindingError \/ (e = IntegrityError /\ v = JNull).
Proof.
  unfold bind_text. destruct v as [| b | n | s | l | kv]; try discriminate;
    try (intros [= <-]; tauto).
  destruct (is_int64 n); [discriminate|]. intros [= <-]. tauto.
Qed.

Lemma run_issue_raise cfg w pid email st e :
  returned (run (issue cfg w pid email) st) = raise e ->
  final_db (run (issue cfg w pid email) st) = st /\
  ((exists msg,
      makedirs w ingresso_dir = Some msg /\ e = OSError msg /\
      trace (run (issue cfg w pid email) st) = []) \/
   (makedirs w ingresso_dir = None /\
    trace (run (issue cfg w pid email) st) =
      MakeDirs ingresso_dir
      :: snd (generate_image cfg w (format_code cfg (next_on st))) /\
    ((is_int64 (next_on st) = false /\ e = OverflowError) \/
     bind_text email = raise e \/
     (code_taken st (format_code cfg (next_on st)) = true /\
      e = IntegrityError)))).
Proof.
  unfold issue. simpl.
  destruct (generate_image cfg w (format_code cfg (next_on st)))
    as [generated_path printed].
  destruct (makedirs w ingresso_dir) as [msg|].
  { cbn [run returned final_db trace]. intros [= <-].
    split; [reflexivity|]. left. now exists msg. }
  cbn [run logged returned snd]. rewrite (run_emit_all printed).
  cbn [returned final_db trace].
  unfold bind_int.
  destruct (is_int64 (next_on st)); cbn [rbind run returned final_db trace].
  2: { intros [= <-]. rewrite app_nil_r. split; [reflexivity|].
       right. repeat split. tauto. }
  destruct (bind_text email) as [err|a]; cbn [rbind run returned final_db trace].
  { intros [= <-]. rewrite app_nil_r. split; [reflexivity|].
    right. repeat split. tauto. }
  match goal with |- context [insert_ingresso st ?x] => set (row := x) end.
  destruct (code_taken st (codigo row)) eqn:Hc.
  - rewrite insert_ingresso_dup by exact Hc. cbn [returned final_db trace].
    intros [= <-]. rewrite app_nil_r. split; [reflexivity|].
    right. repeat split. right. right. split; [exact Hc | reflexivity].
  - rewrite insert_ingresso_ok by exact Hc. cbn [logged returned].
    rewrite (run_emit_all (send_ticket_mail _ _ _ _ _)). cbn [returned run].
    discriminate.
Qed.

Lemma webhook_raise_cases cfg w req st e :
  returned (run (webhook cfg w req) st) = raise e ->
  (run (webhook cfg w req) st =
     {| final_db := st; trace := []; returned := raise e |} /\
   e = AttributeError) \/
  (exists info s email,
     read_payment info = ret (s, email) /\
     select_by_payment st (py_str (payment_id_of req)) = None /\
     run (webhook cfg w req) st =
     run (issue cfg w (payment_id_of req) email) st).
Proof.
  unfold webhook.
  destruct (truthy (payment_id_of req)); cbn [negb]; [|discriminate].
  destruct (MP_SDK_AVAILABLE cfg); cbn [negb]; [|discriminate].
  destruct (fetch_payment w (payment_id_of req)) as [e0|info];
    [discriminate|].
  destruct (read_payment info) as [e0|[s email]] eqn:Hr; cbn [rbind].
  { intros [= <-]. left. split; [reflexivity|].
    eapply read_payment_raises; eauto. }
  cbn [fst snd]. destruct (is_approved s) as [e0|[|]] eqn:Ha; cbn [rbind].
  - intros [= <-]. left. split; [reflexivity|].
    eapply is_approved_raises; eauto.
  - cbn [run].
    destruct (select_by_payment st (py_str (payment_id_of req))) eqn:Hs;
      [discriminate|].
    intros _. right. exists info, s, email. repeat split; assumption.
  - discriminate.
Qed.

(** X4. A request that ends in an exception has written nothing: the
    table is as it was, no row was committed, and the provider is
    answered 500. *)
Theorem webhook_raise_writes_nothing cfg w req st e :
  returned (run (webhook cfg w req) st) = raise e ->
  final_db (run (webhook cfg w req) st) = st /\
  (forall r, ~ In (Committed r) (trace (run (webhook cfg w req) st))) /\
  status_code (returned (run (webhook cfg w req) st)) = 500.
Proof.
  intros Hraise.
  assert (Hdb : final_db (run (webhook cfg w req) st) = st).
  { destruct (webhook_raise_cases cfg w req st e Hraise)
      as [(E & He)|(info & s & email & _ & _ & E)].
    - rewrite E. reflexivity.
    - rewrite E in Hraise |- *.
      now destruct (run_issue_raise cfg w _ email st e Hraise). }
  split; [exact Hdb|]. split.
  - intros r Hin. apply webhook_committed in Hin. destruct Hin as (E & _).
    rewrite Hdb in E. apply (f_equal (@List.length ingresso)) in E.
    rewrite length_app in E. simpl in E. lia.
  - rewrite Hraise. reflexivity.
Qed.

(** X3. Served one request after the other from the empty table, the
    insert of the route is never refused: no request ends in an
    [IntegrityError]. *)
Theorem sequential_never_integrity_error cfg w req st :
  reachable cfg st ->
  returned (run (webhook cfg w req) st) <> raise IntegrityError.
Proof.
  intros Hreach Hraise.
  destruct (webhook_raise_cases cfg w req st _ Hraise)
    as [(_ & He)|(info & s & email & Hr & _ & E)]; [discriminate|].
  rewrite E in Hraise.
  destruct (run_issue_raise cfg w _ email st _ Hraise)
    as (_ & [(msg & _ & He & _)|(_ & _ & [(_ & He)|[Hb|(Hc & _)]])]).
  - discriminate.
  - discriminate.
  - apply bind_text_raises in Hb.
    destruct Hb as [Hb|[Hb|(_ & ->)]]; try discriminate.
    apply read_payment_truthy in Hr. discriminate.
  - rewrite fresh_code in Hc; [discriminate|].
    now apply (reachable_inv py_repr cfg).
Qed.

(** X8. Without the payment SDK the route acknowledges every request and
    writes nothing, so no ticket is ever issued: the table stays empty. *)
Theorem no_sdk_no_ticket cfg :
  MP_SDK_AVAILABLE cfg = false ->
  (forall w req st,
     final_db (run (webhook cfg w req) st) = st /\
     returned (run (webhook cfg w req) st) = ret OK /\
     forallb is_printed (trace (run (webhook cfg w req) st)) = true) /\
  (forall st, reachable cfg st -> st = []).
Proof.
  intros Hsdk.
  assert (H : forall w req st,
     final_db (run (webhook cfg w req) st) = st /\
     returned (run (webhook cfg w req) st) = ret OK /\
     forallb is_printed (trace (run (webhook cfg w req) st)) = true).
  { intros w req st. unfold webhook. rewrite Hsdk.
    destruct (truthy (payment_id_of req)); repeat split. }
  split; [exact H|].
  induction 1 as [|st w req Hreach IH]; [reflexivity|].
  destruct (H w req st) as (E & _). now rewrite E.
Qed.

(** X9. An answer of the provider that the route cannot read makes it
    raise [AttributeError] outside any [try]: a [payer] member that is not
    an object, or a status that is neither empty nor a text.  Nothing is
    written and the provider is answered 500. *)
Theorem unreadable_answer_raises cfg w req st kv :
  truthy (payment_id_of req) = true ->
  MP_SDK_AVAILABLE cfg = true ->
  fetch_payment w (payment_id_of req) = ret (JDict kv) ->
  ((exists payer, lookup "payer" kv = Some payer /\ is_dict payer = false) \/
   (exists s email,
      read_payment (JDict kv) = ret (s, email) /\
      truthy s = true /\ forall t, s <> JStr t)) ->
  run (webhook cfg w req) st =
    {| final_db := st; trace := []; returned := raise AttributeError |} /\
  status_code (raise AttributeError) = 500.
Proof.
  intros Hid Hsdk Hf Hcase. split; [|reflexivity].
  destruct Hcase as [(payer & Hp & Hd)|(s & email & Hr & Ht & Hs)].
  - unfold webhook. rewrite Hid, Hsdk, Hf. cbn [negb].
    assert (Hr : read_payment (JDict kv) = raise AttributeError).
    { unfold read_payment, py_get. rewrite Hp.
      destruct (lookup "status" kv); cbn [rbind];
        destruct payer; try discriminate; reflexivity. }
    rewrite Hr. reflexivity.
  - eapply webhook_status_not_text; eauto.
    unfold is_approved. rewrite Ht.
    destruct s; try reflexivity. now destruct (Hs s).
Qed.

(** X10. The image is written before the insert.  When the directory is
    made, the library stamps the image and the insert then raises, the file of the new code stays
    on disk although the table holds no row for it. *)
Theorem image_without_row cfg w req st info s email e :
  truthy (payment_id_of req) = true ->
  MP_SDK_AVAILABLE cfg = true ->
  fetch_payment w (payment_id_of req) = ret info ->
  read_payment info = ret (s, email) ->
  is_approved s = ret true ->
  select_by_payment st (py_str (payment_id_of req)) = None ->
  makedirs w ingresso_dir = None ->
  PIL_AVAILABLE cfg = true ->
  path_exists w base_path = true ->
  stamp w = (fun _ _ _ => None) ->
  returned (run (webhook cfg w req) st) = raise e ->
  final_db (run (webhook cfg w req) st) = st /\
  trace (run (webhook cfg w req) st) =
    [MakeDirs ingresso_dir;
     SavedImage
       (path_join ingresso_dir (format_code cfg (next_on st) ++ ".png"))
       ("#" ++ format_code cfg (next_on st))].
Proof.
  intros Hid Hsdk Hf Hr Ha Hs Hmk Hpil Hbase Hstamp Hraise.
  rewrite (webhook_approved_new py_repr cfg w req st info s email)
    in Hraise |- * by assumption.
  destruct (run_issue_raise cfg w _ email st e Hraise)
    as (E & [(msg & Hm & _)|(_ & Ht & _)]); [congruence|].
  split; [exact E|]. rewrite Ht.
  unfold generate_image. rewrite Hpil, Hbase, Hstamp. reflexivity.
Qed.

(** An approved payment without a row, when [os.makedirs] raises: the
    request ends with its [OSError], before the image and the insert. *)
Lemma webhook_makedirs_raises cfg w req st info s email msg :
  truthy (payment_id_of req) = true ->
  MP_SDK_AVAILABLE cfg = true ->
  fetch_payment w (payment_id_of req) = ret info ->
  read_payment info = ret (s, email) ->
  is_approved s = ret true ->
  select_by_payment st (py_str (payment_id_of req)) = None ->
  makedirs w ingresso_dir = Some msg ->
  run (webhook cfg w req) st =
    {| final_db := st; trace := []; returned := raise (OSError msg) |}.
Proof.
  intros Hid Hsdk Hf Hr Ha Hs Hmk.
  rewrite (webhook_approved_new py_repr cfg w req st info s email)
    by assumption.
  unfold issue. simpl.
  destruct (generate_image cfg w (format_code cfg (next_on st)))
    as [generated_path printed].
  rewrite Hmk. reflexivity.
Qed.

(** *** Many deliveries *)

Lemma is_int64_count (n : nat) :
  Z.of_nat n + 1 <= INT64_MAX -> is_int64 (Z.of_nat n + 1) = true.
Proof.
  unfold is_int64, INT64_MIN, INT64_MAX. intros H.
  apply andb_true_intro. split; apply Z.leb_le; lia.
Qed.

Lemma serve_all_distinct cfg ds :
  MP_SDK_AVAILABLE cfg = true ->
  forall st,
    reachable cfg st ->
    Forall (fun d => approved_delivery (fst d) (snd d)) ds ->
    Forall (fun d => makedirs (fst d) ingresso_dir = None) ds ->
    NoDup (map delivery_key ds) ->
    (forall d, In d ds -> ~ In (delivery_key d) (payment_refs st)) ->
    Z.of_nat (List.length st + List.length ds) <= INT64_MAX ->
    reachable cfg (serve_all cfg ds st) /\
    payment_refs (serve_all cfg ds st)
      = (payment_refs st ++ map delivery_key ds)%list /\
    List.length (serve_all cfg ds st)
      = (List.length st + List.length ds)%nat.
Proof.
  intros Hsdk. induction ds as [|[w req] ds IH];
    intros st Hreach Hall Hdirs Hnd Hnew Hmax.
  - simpl. rewrite app_nil_r, Nat.add_0_r. repeat split; assumption.
  - inversion Hall as [|? ? Hd Hall']; subst.
    inversion Hdirs as [|? ? Hmk Hdirs']; subst. simpl in Hmk.
    inversion Hnd as [|? ? Hk Hnd']; subst.
    destruct Hd as (Hid & info & s & email & e & Hf & Hr & Ha & He).
    simpl in Hid, Hf, Hmax.
    assert (Hnone : select_by_payment st (py_str (payment_id_of req)) = None).
    { apply select_by_payment_none. apply (Hnew (w, req)). now left. }
    assert (Hn : is_int64 (next_on st) = true).
    { rewrite (reachable_next cfg st Hreach). apply is_int64_count. lia. }
    destruct (webhook_issue_run py_repr cfg w req st info s email e
                Hreach Hid Hsdk Hf Hr Ha He Hnone Hmk Hn)
      as (r & Hrun & Hrow).
    assert (Hdb : final_db (run (webhook cfg w req) st) = (st ++ [r])%list)
      by now rewrite Hrun.
    assert (Hrefs : payment_refs (st ++ [r])%list
                    = (payment_refs st ++ [delivery_key (w, req)])%list).
    { rewrite payment_refs_app. f_equal. unfold payment_refs. simpl.
      rewrite Hrow. reflexivity. }
    simpl serve_all. rewrite Hdb.
    destruct (IH (st ++ [r])%list) as (R1 & R2 & R3).
    + rewrite <- Hdb. now constructor.
    + exact Hall'.
    + exact Hdirs'.
    + exact Hnd'.
    + intros d Hin. rewrite Hrefs, in_app_iff. simpl.
      intros [H|[H|[]]].
      * apply (Hnew d); [now right | exact H].
      * apply Hk. rewrite H. now apply in_map.
    + rewrite length_app. simpl in *. lia.
    + split; [exact R1|]. split.
      * rewrite R2, Hrefs, <- app_assoc. reflexivity.
      * rewrite R3, length_app. simpl. lia.
Qed.


(** *** The same payment notified twice at the same time *)

Lemma webhook_first_step cfg w req st info s email :
  truthy (payment_id_of req) = true ->
  MP_SDK_AVAILABLE cfg = true ->
  fetch_payment w (payment_id_of req) = ret info ->
  read_payment info = ret (s, email) ->
  is_approved s = ret true ->
  select_by_payment st (py_str (payment_id_of req)) = None ->
  step (webhook cfg w req) st = (issue cfg w (payment_id_of req) email, st).
Proof.
  intros Hid Hsdk Hf Hr Ha Hs. unfold webhook.
  rewrite Hid, Hsdk, Hf, Hr. cbn [negb rbind fst snd].
  rewrite Ha. cbn [rbind step]. rewrite Hs. reflexivity.
Qed.


(** *** Bodies that are not objects *)

(** X13. With no body, a body that is not JSON, or an empty JSON value,
    the payment id is read from the query parameters alone.  With a body
    that is a number other than zero or [true], the first test of the
    extraction raises and no id is resolved, whatever the query
    parameters are: the route answers [OK] and does nothing. *)
Theorem body_edge_cases :
  (forall req,
     get_payload req = JDict [] ->
     payment_id_of req =
       match args_payment_id (args req) with
       | Some i => JStr i
       | None => JNull
       end) /\
  (forall req v,
     body req = Some v ->
     truthy v = true ->
     (exists n, v = JInt n) \/ (exists b, v = JBool b) ->
     payment_id_of req = JNull /\
     forall cfg w st, run (webhook cfg w req) st = acknowledged st []).
Proof.
  split.
  - intros req Hp. unfold payment_id_of. rewrite Hp.
    unfold extract_payment_id. cbn.
    destruct (args_payment_id (args req)); reflexivity.
  - intros req v Hb Ht Hv.
    assert (E : payment_id_of req = JNull).
    { unfold payment_id_of, get_payload. rewrite Hb, Ht.
      destruct Hv as [(n & ->)|(b & ->)]; reflexivity. }
    split; [exact E|].
    intros. apply no_payment_id. now rewrite E.
Qed.

End MoreWebhookProperties.

(** ** The admin area *)

Lemma lookup_dict_set {V} (k : string) (v : V) (d : list (string * V)) :
  lookup k (dict_set k v d) = Some v.
Proof.
  induction d as [|[k' v'] d IH]; simpl.
  - now rewrite String.eqb_refl.
  - destruct (String.eqb_spec k' k) as [->|Hne]; simpl.
    + now rewrite String.eqb_refl.
    + apply String.eqb_neq in Hne. now rewrite Hne.
Qed.

Lemma lookup_dict_set_other {V} (k k0 : string) (v : V)
    (d : list (string * V)) :
  k0 <> k -> lookup k0 (dict_set k v d) = lookup k0 d.
Proof.
  intros Hne. induction d as [|[k' v'] d IH]; simpl.
  - destruct (String.eqb_spec k k0) as [->|_]; [contradiction | reflexivity].
  - destruct (String.eqb_spec k' k) as [->|Hk]; simpl.
    + destruct (String.eqb_spec k k0) as [->|_]; [contradiction|].
      reflexivity.
    + destruct (k' =? k0)%string; [reflexivity | exact IH].
Qed.

Lemma lookup_dict_pop {V} (k : string) (d : list (string * V)) :
  lookup k (dict_pop k d) = None.
Proof.
  unfold dict_pop. induction d as [|[k' v'] d IH]; simpl; [reflexivity|].
  destruct (String.eqb_spec k' k) as [->|Hne]; simpl; [exact IH|].
  apply String.eqb_neq in Hne. now rewrite Hne.
Qed.

Lemma lookup_dict_pop_other {V} (k k0 : string) (d : list (string * V)) :
  k0 <> k -> lookup k0 (dict_pop k d) = lookup k0 d.
Proof.
  intros Hne. unfold dict_pop.
  induction d as [|[k' v'] d IH]; simpl; [reflexivity|].
  destruct (String.eqb_spec k' k) as [->|Hk]; simpl.
  - destruct (String.eqb_spec k k0) as [->|_]; [contradiction | exact IH].
  - destruct (k' =? k0)%string; [reflexivity | exact IH].
Qed.

Lemma admin_views (st : db) (s : session) :
  (logged_in s = true ->
   admin_panel st s = RenderPanel (select_all_desc st) /\
   api_ingressos st s = JsonRows (select_all_desc st)) /\
  (logged_in s = false ->
   admin_panel st s = RedirectTo "/admin/login" /\
   api_ingressos st s = RedirectTo "/admin/login").
Proof.
  unfold logged_in, admin_panel, api_ingressos, admin_required.
  destruct (lookup "admin_logged" s) as [v|]; [destruct (truthy v)|];
    split; intros H; try discriminate; split; reflexivity.
Qed.

Lemma good_login_sets env method form s :
  good_login env (Login method form) = true ->
  admin_login env method form s =
  (RedirectTo "/admin", dict_set "admin_logged" (JBool true) s).
Proof.
  unfold good_login, admin_login. intros H.
  apply andb_true_iff in H. destruct H as (H & Hp).
  apply andb_true_iff in H. destruct H as (Hm & Hu).
  apply negb_true_iff in Hm. now rewrite Hm, Hu, Hp.
Qed.

Lemma bad_login_keeps env method form s :
  good_login env (Login method form) = false ->
  snd (admin_login env method form s) = s /\
  fst (admin_login env method form s) <> RedirectTo "/admin".
Proof.
  unfold good_login, admin_login. intros H.
  destruct (method =? "GET")%string; simpl in *;
    [split; [reflexivity | discriminate]|].
  rewrite H. split; [reflexivity | discriminate].
Qed.

(** X14. A login whose two fields equal the configured user and password
    sets the flag and redirects to the panel; from then on the panel and
    the JSON listing give every row of the table, the most recent first,
    and the other keys of the session are untouched.  After a logout both
    views redirect to the login page again. *)
Theorem login_then_views_then_logout env method form s st :
  method <> "GET" ->
  lookup "user" form = Some (ADMIN_USER env) ->
  lookup "pass" form = Some (ADMIN_PASS env) ->
  let s1 := snd (admin_login env method form s) in
  let s2 := snd (admin_logout s1) in
  fst (admin_login env method form s) = RedirectTo "/admin" /\
  admin_panel st s1 = RenderPanel (List.rev st) /\
  api_ingressos st s1 = JsonRows (List.rev st) /\
  (forall k, k <> "admin_logged" -> lookup k s1 = lookup k s) /\
  admin_panel st s2 = RedirectTo "/admin/login" /\
  api_ingressos st s2 = RedirectTo "/admin/login".
Proof.
  intros Hm Hu Hp s1 s2.
  assert (Hgood : good_login env (Login method form) = true).
  { unfold good_login, form_is. rewrite Hu, Hp, !String.eqb_refl.
    apply String.eqb_neq in Hm. now rewrite Hm. }
  pose proof (good_login_sets env method form s Hgood) as E.
  subst s2 s1. rewrite E. cbn [fst snd admin_logout].
  assert (H1 : logged_in (dict_set "admin_logged" (JBool true) s) = true).
  { unfold logged_in. now rewrite lookup_dict_set. }
  assert (H2 : logged_in (dict_pop "admin_logged"
                 (dict_set "admin_logged" (JBool true) s)) = false).
  { unfold logged_in. now rewrite lookup_dict_pop. }
  split; [reflexivity|].
  split; [now apply admin_views|]. split; [now apply admin_views|].
  split; [intros k Hk; now apply lookup_dict_set_other|].
  split; now apply admin_views.
Qed.

(** X15. The login redirects to the panel exactly when the method is not
    [GET] and both fields are present and equal to the configured values.
    In every other case the session is left as it was: a wrong password
    does not set the flag, and does not clear one that is set. *)
Theorem login_only_with_credentials env method form s :
  (fst (admin_login env method form s) = RedirectTo "/admin" <->
   method <> "GET" /\
   lookup "user" form = Some (ADMIN_USER env) /\
   lookup "pass" form = Some (ADMIN_PASS env)) /\
  (fst (admin_login env method form s) <> RedirectTo "/admin" ->
   snd (admin_login env method form s) = s) /\
  (method <> "GET" ->
   fst (admin_login env method form s) <> RedirectTo "/admin" ->
   fst (admin_login env method form s) = Plain "Credenciais inválidas" 401).
Proof.
  unfold admin_login, form_is.
  destruct (String.eqb_spec method "GET") as [->|Hm]; simpl.
  - split; [|split].
    + split; [discriminate | intros (H & _); now destruct H].
    + reflexivity.
    + intros H. now destruct H.
  - destruct (lookup "user" form) as [u|]; simpl.
    2: { split; [|split]; try reflexivity.
         split; [discriminate | intros (_ & H & _); discriminate]. }
    destruct (String.eqb_spec u (ADMIN_USER env)) as [->|Hu]; simpl.
    2: { split; [|split]; try reflexivity.
         split; [discriminate | intros (_ & [= H] & _); contradiction]. }
    destruct (lookup "pass" form) as [p|]; simpl.
    2: { split; [|split]; try reflexivity.
         split; [discriminate | intros (_ & _ & H); discriminate]. }
    destruct (String.eqb_spec p (ADMIN_PASS env)) as [->|Hp]; simpl.
    2: { split; [|split]; try reflexivity.
         split; [discriminate | intros (_ & _ & [= H]); contradiction]. }
    split; [|split].
    + split; [intros _; repeat split; assumption | reflexivity].
    + intros H. now destruct H.
    + intros _ H. now destruct H.
Qed.

Lemma admin_steps_no_good_login env acts s :
  existsb (good_login env) acts = false ->
  logged_in s = false ->
  logged_in (admin_steps env acts s) = false.
Proof.
  unfold admin_steps. revert s.
  induction acts as [|a acts IH]; intros s Hno Hs; simpl; [exact Hs|].
  simpl in Hno. apply orb_false_iff in Hno. destruct Hno as (Ha & Hno).
  apply IH; [exact Hno|].
  destruct a as [method form|]; simpl.
  - destruct (bad_login_keeps env method form s Ha) as (E & _).
    now rewrite E.
  - unfold logged_in. now rewrite lookup_dict_pop.
Qed.

(** X16. Whatever a client sends to the login and logout routes, starting
    without the flag, the admin views give it no row unless one of its
    logins carried the configured user and password; and after a login
    that did, followed by anything but a logout, the views are open. *)
Theorem flag_needs_credentials env acts s st :
  logged_in s = false ->
  (existsb (good_login env) acts = false ->
   admin_panel st (admin_steps env acts s) = RedirectTo "/admin/login" /\
   api_ingressos st (admin_steps env acts s) = RedirectTo "/admin/login") /\
  (forall before a after,
     acts = (before ++ a :: after)%list ->
     good_login env a = true ->
     existsb is_logout after = false ->
     admin_panel st (admin_steps env acts s) = RenderPanel (List.rev st) /\
     api_ingressos st (admin_steps env acts s) = JsonRows (List.rev st)).
Proof.
  intros Hs. split.
  - intros Hno. apply admin_views.
    now apply admin_steps_no_good_login.
  - intros before a after -> Hgood Hafter. apply admin_views.
    unfold admin_steps. rewrite fold_left_app. simpl.
    set (s0 := fold_left (admin_step env) before s).
    assert (H1 : logged_in (admin_step env s0 a) = true).
    { destruct a as [method form|]; [|discriminate]. simpl.
      rewrite (good_login_sets env method form s0 Hgood). simpl.
      unfold logged_in. now rewrite lookup_dict_set. }
    clear Hgood. revert H1. generalize (admin_step env s0 a). clear s0.
    induction after as [|b after IH]; intros s1 H1; simpl; [exact H1|].
    simpl in Hafter. apply orb_false_iff in Hafter.
    destruct Hafter as (Hb & Hafter). apply IH; [exact Hafter|].
    destruct b as [method form|]; [|discriminate]. simpl.
    destruct (good_login env (Login method form)) eqn:G.
    + rewrite (good_login_sets env method form s1 G). simpl.
      unfold logged_in. now rewrite lookup_dict_set.
    + destruct (bad_login_keeps env method form s1 G) as (E & _).
      now rewrite E.
Qed.

(** ** Issued tickets in the admin listing *)

Section Listing.

Variable py_repr : json -> string.

(** X17. Once the route has issued a ticket (the directory of the images
    being made), a logged-in admin sees it first, in the panel and in the JSON listing, before every row that
    was there. *)
Theorem issued_ticket_listed_first cfg w req st info s email e sess :
  reachable py_repr cfg st ->
  truthy (payment_id_of req) = true ->
  MP_SDK_AVAILABLE cfg = true ->
  fetch_payment w (payment_id_of req) = ret info ->
  read_payment info = ret (s, email) ->
  is_approved s = ret true ->
  bind_text email = ret e ->
  select_by_payment st (py_str py_repr (payment_id_of req)) = None ->
  makedirs w ingresso_dir = None ->
  is_int64 (maxseq_of (select_max_seq st) + 1) = true ->
  logged_in sess = true ->
  exists r,
    mp_payment_id r = Some (py_str py_repr (payment_id_of req)) /\
    comprador_email r = e /\
    admin_panel (final_db (run (webhook py_repr cfg w req) st)) sess
      = RenderPanel (r :: List.rev st) /\
    api_ingressos (final_db (run (webhook py_repr cfg w req) st)) sess
      = JsonRows (r :: List.rev st).
Proof.
  intros Hreach Hid Hsdk Hf Hr Ha He Hs Hmk Hn Hlog.
  destruct (webhook_issue_run py_repr cfg w req st info s email e
              Hreach Hid Hsdk Hf Hr Ha He Hs Hmk Hn) as (r & Hrun & Hrow).
  exists r. rewrite Hrun. cbn [final_db].
  split; [now rewrite Hrow|]. split; [now rewrite Hrow|].
  destruct (admin_views (st ++ [r])%list sess) as ((Hp & Hj) & _);
    [exact Hlog|].
  unfold select_all_desc in Hp, Hj. rewrite rev_unit in Hp, Hj.
  split; assumption.
Qed.

End Listing.

(** ** Instances of the further properties *)

Lemma distinct_seq_distinct_code_witness :
  format_code default_config 3 <> format_code default_config 4.
Proof.
  intros H. apply distinct_seq_distinct_code in H. discriminate H.
Defined.

Lemma sample_table_reachable :
  reachable sample_repr default_config [sample_row 1 "999"].
Proof.
  exact (reach_serve sample_repr default_config []
           (calm_world "approved") (payment_request (JStr "999"))
           (reach_init sample_repr default_config)).
Defined.

Lemma reachable_numbering_witness :
  reachable sample_repr default_config [sample_row 1 "999"] /\
  map seq [sample_row 1 "999"] = first_numbers 1.
Proof.
  split; [exact sample_table_reachable|].
  exact (proj1 (reachable_numbering sample_repr default_config _
                  sample_table_reachable)).
Defined.

Lemma sequential_never_integrity_error_witness :
  reachable sample_repr default_config [sample_row 1 "999"] /\
  returned (run (webhook sample_repr default_config (calm_world "approved")
                   (payment_request (JStr "1000"))) [sample_row 1 "999"])
    <> raise IntegrityError.
Proof.
  split; [exact sample_table_reachable|].
  apply sequential_never_integrity_error. exact sample_table_reachable.
Defined.

Lemma webhook_raise_writes_nothing_witness :
  returned (run (webhook sample_repr default_config (calm_world "approved")
                   (payment_request (JStr "999"))) edited_table)
    = raise IntegrityError /\
  final_db (run (webhook sample_repr default_config (calm_world "approved")
                   (payment_request (JStr "999"))) edited_table)
    = edited_table.
Proof.
  assert (H : returned (run (webhook sample_repr default_config
                               (calm_world "approved")
                               (payment_request (JStr "999"))) edited_table)
              = raise IntegrityError) by reflexivity.
  split; [exact H|].
  exact (proj1 (webhook_raise_writes_nothing sample_repr _ _ _ _ _ H)).
Defined.

Lemma calm_delivery_approved (i : string) :
  i <> EmptyString ->
  approved_delivery (calm_world "approved") (payment_request (JStr i)).
Proof.
  intros Hi. split.
  - simpl. apply String.eqb_neq in Hi. now rewrite Hi.
  - exists (JDict [("status", JStr "approved");
                   ("payer", JDict [("email", JStr "a@b.com")])]).
    exists (JStr "approved"), (JStr "a@b.com"), "a@b.com".
    repeat split.
Defined.


Lemma no_sdk_no_ticket_witness :
  MP_SDK_AVAILABLE no_sdk_config = false /\
  final_db (run (webhook sample_repr no_sdk_config (calm_world "approved")
                   (payment_request (JStr "999"))) []) = [].
Proof.
  split; [reflexivity|].
  exact (proj1 (proj1 (no_sdk_no_ticket sample_repr no_sdk_config eq_refl)
                  _ _ _)).
Defined.

Lemma unreadable_answer_raises_witness :
  truthy (payment_id_of (payment_request (JStr "999"))) = true /\
  returned (run (webhook sample_repr default_config null_payer_world
                   (payment_request (JStr "999"))) [])
    = raise AttributeError.
Proof.
  split; [reflexivity|].
  assert (H := unreadable_answer_raises sample_repr default_config
                 null_payer_world (payment_request (JStr "999")) []
                 [("status", JStr "approved"); ("payer", JNull)]
                 eq_refl eq_refl eq_refl
                 (or_introl (ex_intro _ JNull (conj eq_refl eq_refl)))).
  destruct H as (H & _). now rewrite H.
Defined.

Lemma image_without_row_witness :
  returned (run (webhook sample_repr default_config (calm_world "approved")
                   (payment_request (JStr "999"))) edited_table)
    = raise IntegrityError /\
  trace (run (webhook sample_repr default_config (calm_world "approved")
                (payment_request (JStr "999"))) edited_table)
    = [MakeDirs "static/ingressos";
       SavedImage "static/ingressos/LUAL0002.png" "#LUAL0002"].
Proof.
  split; [reflexivity|].
  refine (proj2 (image_without_row sample_repr default_config
                   (calm_world "approved") (payment_request (JStr "999"))
                   edited_table
                   (JDict [("status", JStr "approved");
                           ("payer", JDict [("email", JStr "a@b.com")])])
                   (JStr "approved") (JStr "a@b.com") IntegrityError
                   _ _ _ _ _ _ _ _ _ _ _)); reflexivity.
Defined.


Lemma body_edge_cases_witness :
  body number_body_request = Some (JInt 5) /\
  payment_id_of number_body_request = JNull.
Proof.
  split; [reflexivity|].
  refine (proj1 (proj2 (body_edge_cases sample_repr) number_body_request (JInt 5)
                   eq_refl eq_refl (or_introl (ex_intro _ 5 eq_refl)))).
Defined.

Lemma login_then_views_then_logout_witness :
  "POST" <> "GET" /\
  admin_panel [sample_row 1 "999"]
    (snd (admin_login default_admin "POST" (admin_form "admin" "senha123") []))
    = RenderPanel [sample_row 1 "999"].
Proof.
  split; [discriminate|].
  refine (proj1 (proj2 (login_then_views_then_logout default_admin "POST"
                          (admin_form "admin" "senha123") []
                          [sample_row 1 "999"] _ eq_refl eq_refl))).
  discriminate.
Defined.

Lemma login_only_with_credentials_witness :
  fst (admin_login default_admin "POST" (admin_form "admin" "senha")
         [("admin_logged", JBool true)]) <> RedirectTo "/admin" /\
  snd (admin_login default_admin "POST" (admin_form "admin" "senha")
         [("admin_logged", JBool true)]) = [("admin_logged", JBool true)].
Proof.
  assert (H : fst (admin_login default_admin "POST" (admin_form "admin" "senha")
                     [("admin_logged", JBool true)]) <> RedirectTo "/admin")
    by discriminate.
  split; [exact H|].
  exact (proj1 (proj2 (login_only_with_credentials default_admin "POST"
                         (admin_form "admin" "senha")
                         [("admin_logged", JBool true)])) H).
Defined.

Lemma flag_needs_credentials_witness :
  logged_in [] = false /\
  admin_panel [sample_row 1 "999"]
    (admin_steps default_admin
       [Login "POST" (admin_form "admin" "senha"); Logout;
        Login "GET" (admin_form "admin" "senha123")] [])
    = RedirectTo "/admin/login".
Proof.
  split; [reflexivity|].
  exact (proj1 (proj1 (flag_needs_credentials default_admin
                         [Login "POST" (admin_form "admin" "senha"); Logout;
                          Login "GET" (admin_form "admin" "senha123")] []
                         [sample_row 1 "999"] eq_refl) eq_refl)).
Defined.

Lemma issued_ticket_listed_first_witness :
  reachable sample_repr default_config [sample_row 1 "999"] /\
  exists r,
    mp_payment_id r = Some "1000" /\
    api_ingressos
      (final_db (run (webhook sample_repr default_config
                        (calm_world "approved")
                        (payment_request (JStr "1000")))
                   [sample_row 1 "999"]))
      [("admin_logged", JBool true)]
    = JsonRows [r; sample_row 1 "999"].
Proof.
  split; [exact sample_table_reachable|].
  destruct (issued_ticket_listed_first sample_repr default_config
              (calm_world "approved") (payment_request (JStr "1000"))
              [sample_row 1 "999"]
              (JDict [("status", JStr "approved");
                      ("payer", JDict [("email", JStr "a@b.com")])])
              (JStr "approved") (JStr "a@b.com") "a@b.com"
              [("admin_logged", JBool true)])
    as (r & H1 & _ & _ & H4);
    try reflexivity; [exact sample_table_reachable|].
  exists r. split; [exact H1 | exact H4].
Defined.
